(* ===================================================================== *)
(* conjure-sdk: adapter dispatch, result wire form, persistent server    *)
(* client and threaded socket server, embedded from the Python sources   *)
(*   src/conjure/adapter/result.py                                       *)
(*   src/conjure/adapter/base_adapter.py                                 *)
(*   src/conjure/adapter/base_server_client.py                           *)
(*   src/conjure/transport/socket_server.py                              *)
(* ===================================================================== *)

From Stdlib Require Import ZArith String List Bool Lia.
From stdpp Require Import base option gmap strings list fin_maps pretty.

Set Warnings "-clear-no-such-hyp".

Local Open Scope string_scope.

(* --------------------------------------------------------------------- *)
(* Python values                                                         *)
(* --------------------------------------------------------------------- *)

(** The dynamically typed values that travel through handlers, result
    objects and JSON frames.  A [dict] is a finite map keyed by strings
    (the sources annotate every mapping as [Dict[str, Any]]).  [VOther]
    stands for any object of another class (a float, a tuple, a coroutine,
    an instance), of which the truth value and the text [str(v)] matter
    here. *)
#[warnings="-register-all"] Inductive value : Type :=
  | VNone
  | VBool (b : bool)
  | VInt (z : Z)
  | VStr (s : string)
  | VList (l : list value)
  | VDict (d : gmap string value)
  | VOther (truth : bool) (text : string).

Abbreviation dict := (gmap string value).

(** Python truthiness, the test performed by [if x:]. *)
Definition truthy (v : value) : bool :=
  match v with
  | VNone => false
  | VBool b => b
  | VInt z => negb (z =? 0)%Z
  | VStr s => negb (String.eqb s "")
  | VList l => match l with [] => false | _ => true end
  | VDict d => negb (bool_decide (d = ∅))
  | VOther truth _ => truth
  end.

(** [v == "error"]-style comparison of a value with a string literal. *)
Definition eq_str (v : value) (lit : string) : bool :=
  match v with
  | VStr s => String.eqb s lit
  | _ => false
  end.

(** [d.get(k)] and [d.get(k, default)]. *)
Definition dict_get (d : dict) (k : string) : value :=
  default VNone (d !! k).

Definition dict_get_or (d : dict) (k : string) (dflt : value) : value :=
  default dflt (d !! k).

(* --------------------------------------------------------------------- *)
(* Python string operations                                              *)
(* --------------------------------------------------------------------- *)

Module PyStr.

(** [name.startswith(prefix)] *)
Fixpoint startswith (name prefix : string) {struct prefix} : bool :=
  match prefix, name with
  | EmptyString, _ => true
  | String _ _, EmptyString => false
  | String p prefix, String c name =>
      if Ascii.eqb c p then startswith name prefix else false
  end.

(** [s[n:]] *)
Fixpoint slice_from (n : nat) (s : string) : string :=
  match n, s with
  | O, _ => s
  | S _, EmptyString => EmptyString
  | S n, String _ s => slice_from n s
  end.

(** The line feed, the delimiter of the socket protocol. *)
Definition LF : Ascii.ascii := Ascii.ascii_of_nat 10.

(** [str.isspace] on one character, for the code points below 256 (a
    [string] holds no others): the ASCII controls 9 to 13 and 28 to 31,
    the space, NEL (133) and the no-break space (160). *)
Definition isspace (c : Ascii.ascii) : bool :=
  let n := Ascii.nat_of_ascii c in
  (((9 <=? n) && (n <=? 13)) || ((28 <=? n) && (n <=? 32))
   || (n =? 133) || (n =? 160))%nat.

(** [s.lstrip()] *)
Fixpoint lstrip (s : string) : string :=
  match s with
  | EmptyString => EmptyString
  | String c s' => if isspace c then lstrip s' else s
  end.

(** [s.rstrip()] *)
Fixpoint rstrip (s : string) : string :=
  match s with
  | EmptyString => EmptyString
  | String c s' =>
      match rstrip s' with
      | EmptyString => if isspace c then EmptyString else String c EmptyString
      | r => String c r
      end
  end.

(** [s.strip()] *)
Definition strip (s : string) : string := rstrip (lstrip s).

(** [s.split(LF, 1)] when the string holds a line feed: the text before
    the first one and the text after it; [None] when it holds none. *)
Fixpoint partition_line (s : string) : option (string * string) :=
  match s with
  | EmptyString => None
  | String c s' =>
      if Ascii.eqb c LF then Some (EmptyString, s')
      else
        match partition_line s' with
        | Some (line, rest) => Some (String c line, rest)
        | None => None
        end
  end.

End PyStr.

(* --------------------------------------------------------------------- *)
(* result.py                                                             *)
(* --------------------------------------------------------------------- *)

Module AdapterResult.

(** The dataclass [AdapterResult].  [error] is [VNone] for Python's
    [None]; the dispatcher stores whatever the legacy mapping carried,
    so the field is a value and not only a string. *)
Record t : Type := Build {
  success : bool;
  data : dict;
  error : value
}.

(** [AdapterResult.ok]: the keyword arguments become the data. *)
Definition ok (kw : dict) : t :=
  {| success := true; data := kw; error := VNone |}.

(** [AdapterResult.fail]: an error and keyword arguments as data. *)
Definition fail (err : value) (kw : dict) : t :=
  {| success := false; data := kw; error := err |}.

(** [to_wire]: the [error] key is written under [if self.error:]. *)
Definition to_wire (r : t) : dict :=
  let d := <["data" := VDict (data r)]> (<["success" := VBool (success r)]> ∅) in
  if truthy (error r) then <["error" := error r]> d else d.

(** Modelled from the spec: the parser of the wire form of a Result is
    not part of the repository; section 8 only says that re-parsing
    reconstructs the success/data/error triple, the error key being
    optional.  A frame without a boolean [success] or a mapping [data]
    is not a Result. *)
Definition from_wire (w : dict) : option t :=
  match w !! "success", w !! "data" with
  | Some (VBool s), Some (VDict d) =>
      Some {| success := s; data := d; error := dict_get w "error" |}
  | _, _ => None
  end.

(** [Optional[str]]: the declared type of the [error] field. *)
Definition optional_str (v : value) : Prop :=
  v = VNone ∨ ∃ s, v = VStr s.

End AdapterResult.

(* --------------------------------------------------------------------- *)
(* Exceptions and outcomes                                               *)
(* --------------------------------------------------------------------- *)

(** A raised Python exception: whether its class derives from
    [Exception] (as opposed to only [BaseException], like
    [KeyboardInterrupt], [SystemExit] or [asyncio.CancelledError]), and
    the text [str(e)]. *)
Record py_exception : Type := PyExc {
  exc_is_Exception : bool;
  exc_str : string
}.

(** Outcome of a call: a returned value or a propagating exception. *)
Inductive outcome (A : Type) : Type :=
  | Returns (a : A)
  | Raises (e : py_exception).
Arguments Returns {A} a.
Arguments Raises {A} e.

(* --------------------------------------------------------------------- *)
(* base_adapter.py                                                       *)
(* --------------------------------------------------------------------- *)

Module BaseAdapter.

(** What a handler hands back: an [AdapterResult] instance or any other
    Python value ([isinstance(result, dict)] holds on [VDict] only). *)
Inductive retval : Type :=
  | RetResult (r : AdapterResult.t)
  | RetValue (v : value).

(** A registered callable.  [is_coroutine] is what
    [inspect.iscoroutinefunction] answers; an async handler is awaited,
    a sync one called, and either way the body runs to an outcome.
    [body] is the callable on a mapping, the annotated type of the
    parameters; [body_other] is the same callable on an argument of any
    other class (nothing in [execute] tests the class of [params]). *)
Record handler : Type := Handler {
  is_coroutine : bool;
  body : dict → outcome retval;
  body_other : value → outcome retval
}.

(** The adapter: its registry and the two abstract methods.
    [health_check] is code of the subclass: it returns a boolean or
    raises. *)
Record t : Type := Build {
  _handlers : gmap string handler;
  health_check : outcome bool;
  capabilities : list string
}.

(** [register_handler] *)
Definition register_handler (a : t) (command_type : string) (h : handler) : t :=
  {| _handlers := <[command_type := h]> (_handlers a);
     health_check := health_check a;
     capabilities := capabilities a |}.

(** The body of the [try] block once the handler has returned. *)
Definition normalize (result : retval) : AdapterResult.t :=
  match result with
  | RetResult r => r
  | RetValue (VDict d) =>
      if eq_str (dict_get d "status") "error"
      then AdapterResult.fail (dict_get_or d "error" (VStr "Unknown error")) ∅
      else {| AdapterResult.success := true;
              AdapterResult.data := d;
              AdapterResult.error := VNone |}
  | RetValue _ => AdapterResult.ok ∅
  end.

(** [await handler(params)] / [handler(params)] *)
Definition call (h : handler) (params : dict) : outcome retval :=
  if is_coroutine h then body h params else body h params.

(** [execute]: [except Exception as e] catches the exceptions whose
    class derives from [Exception]; any other one propagates. *)
Definition execute (a : t) (command_type : string) (params : dict)
  : outcome AdapterResult.t :=
  match _handlers a !! command_type with
  | None =>
      Returns (AdapterResult.fail (VStr ("Unknown command: " ++ command_type)) ∅)
  | Some h =>
      match call h params with
      | Returns result => Returns (normalize result)
      | Raises e =>
          if exc_is_Exception e
          then Returns (AdapterResult.fail (VStr (exc_str e)) ∅)
          else Raises e
      end
  end.

(** [await handler(params)] / [handler(params)] on an argument of any
    class. *)
Definition call_any (h : handler) (params : value) : outcome retval :=
  match params with
  | VDict d => call h d
  | v => if is_coroutine h then body_other h v else body_other h v
  end.

(** [execute] on arguments of any class, as a caller that does not
    check the annotated types runs it.  [self._handlers.get] raises
    [TypeError] on an unhashable key, before the [try] block (the text is
    the one of CPython up to 3.13); a hashable key that is not a string is
    not in the registry, whose keys are strings, and the f-string formats
    it with [str].  [VOther] is a float here, the only other class that a
    decoded frame holds, and a float is hashable. *)
Definition execute_any (a : t) (command_type params : value)
  : outcome AdapterResult.t :=
  let unknown (text : string) : outcome AdapterResult.t :=
    Returns (AdapterResult.fail (VStr ("Unknown command: " ++ text)) ∅) in
  match command_type with
  | VList _ => Raises (PyExc true "unhashable type: 'list'")
  | VDict _ => Raises (PyExc true "unhashable type: 'dict'")
  | VStr command_type =>
      match _handlers a !! command_type with
      | None => unknown command_type
      | Some h =>
          match call_any h params with
          | Returns result => Returns (normalize result)
          | Raises e =>
              if exc_is_Exception e
              then Returns (AdapterResult.fail (VStr (exc_str e)) ∅)
              else Raises e
          end
      end
  | VNone => unknown "None"
  | VBool b => unknown (if b then "True" else "False")
  | VInt z => unknown (pretty z)
  | VOther _ text => unknown text
  end.

(** What [dir(self)] and [getattr] find on the adapter object: its
    attribute names, each with a callable or with something else. *)
Inductive member : Type :=
  | Callable (h : handler)
  | NotCallable.

(** One turn of the loop of [register_handlers_by_prefix]. *)
Definition register_member (prefix : string) (a : t) (named : string * member) : t :=
  if PyStr.startswith named.1 prefix then
    match named.2 with
    | Callable h =>
        register_handler a (PyStr.slice_from (String.length prefix) named.1) h
    | NotCallable => a
    end
  else a.

(** [register_handlers_by_prefix]: [members] is [dir(self)] with the
    attribute behind each name, in the order of [dir]. *)
Definition register_handlers_by_prefix
    (members : list (string * member)) (prefix : string) (a : t) : t :=
  foldl (register_member prefix) a members.

(** [get_supported_commands]: the keys of the registry.  The map does not
    record the order in which Python lists them (the order of
    registration); the members of the list and their number are the
    same. *)
Definition get_supported_commands (a : t) : list string :=
  (map_to_list (_handlers a)).*1.

End BaseAdapter.

(* --------------------------------------------------------------------- *)
(* base_server_client.py                                                 *)
(* --------------------------------------------------------------------- *)

Module BaseServerClient.

Inductive ConnectionState : Type :=
  | DISCONNECTED
  | CONNECTING
  | CONNECTED
  | RECONNECTING.

#[global] Instance ConnectionState_eq_dec : EqDecision ConnectionState.
Proof. solve_decision. Defined.

(** Identity of a websocket connection object. *)
Definition ws_handle : Type := nat.

(** [ServerClientConfig]; the two delays (floats) only parametrise
    sleeping and the ping of the library, and carry no state. *)
Record ServerClientConfig : Type := Config {
  server_url : string;
  api_key : option string;
  adapter_id : option string;
  adapter_type : string;
  max_reconnect_attempts : Z
}.

(** The attributes assigned in [__init__]. *)
Record t : Type := Build {
  config : ServerClientConfig;
  adapter : option BaseAdapter.t;
  _ws : option ws_handle;
  _state : ConnectionState;
  _reconnect_attempts : Z;
  _running : bool
}.

(** [__init__] *)
Definition init (cfg : ServerClientConfig) (a : option BaseAdapter.t) : t :=
  {| config := cfg; adapter := a; _ws := None; _state := DISCONNECTED;
     _reconnect_attempts := 0; _running := false |}.

Definition set_ws (w : option ws_handle) (c : t) : t :=
  {| config := config c; adapter := adapter c; _ws := w; _state := _state c;
     _reconnect_attempts := _reconnect_attempts c; _running := _running c |}.

Definition set_state (s : ConnectionState) (c : t) : t :=
  {| config := config c; adapter := adapter c; _ws := _ws c; _state := s;
     _reconnect_attempts := _reconnect_attempts c; _running := _running c |}.

Definition set_reconnect_attempts (n : Z) (c : t) : t :=
  {| config := config c; adapter := adapter c; _ws := _ws c; _state := _state c;
     _reconnect_attempts := n; _running := _running c |}.

Definition set_running (b : bool) (c : t) : t :=
  {| config := config c; adapter := adapter c; _ws := _ws c; _state := _state c;
     _reconnect_attempts := _reconnect_attempts c; _running := b |}.

(** The [state] property. *)
Definition state (c : t) : ConnectionState := _state c.

(** The [is_connected] property. *)
Definition is_connected (c : t) : bool :=
  bool_decide (_state c = CONNECTED) && bool_decide (_ws c ≠ None).

(** What happens inside the [try] block of one connection attempt:
    opening the websocket raises, or it opens and [_register] raises
    (the adapter's [get_registration_payload], [json.dumps] or the send),
    or both succeed.  [OpenFails] and [RegisterFails] are the failures
    with an [Exception] of the websocket library or of the operating
    system; [OpenRaises] and [RegisterRaises] carry an exception of any
    class, a cancellation of the awaited call or a [KeyboardInterrupt]
    in adapter code included. *)
Inductive connect_event : Type :=
  | OpenFails
  | RegisterFails (h : ws_handle)
  | Registered (h : ws_handle)
  | OpenRaises (e : py_exception)
  | RegisterRaises (h : ws_handle) (e : py_exception).

(** The attempts that end in the [except Exception] clause. *)
Definition connect_fails (ev : connect_event) : bool :=
  match ev with
  | OpenFails | RegisterFails _ => true
  | Registered _ => false
  | OpenRaises e | RegisterRaises _ e => exc_is_Exception e
  end.

(** The attempts on which an exception that the clause does not catch is
    raised inside the [try] block, with that exception. *)
Definition connect_interrupted (ev : connect_event) : option py_exception :=
  match ev with
  | OpenRaises e | RegisterRaises _ e =>
      if exc_is_Exception e then None else Some e
  | _ => None
  end.

Definition ImportError : py_exception :=
  PyExc true "websockets package required: pip install conjure-sdk[adapter]".

(** [connect]: the import guard, the early return, then the [try]
    block, whose first statement assigns [self._ws] and whose second
    registers.  [except Exception] catches the exceptions whose class
    derives from [Exception]; any other one leaves [connect] with the
    state still [CONNECTING]. *)
Definition connect (websockets_installed : bool) (ev : connect_event) (c : t)
  : t * outcome bool :=
  if negb websockets_installed then (c, Raises ImportError)
  else if is_connected c then (c, Returns true)
  else
    let c := set_state CONNECTING c in
    match ev with
    | OpenFails =>
        (set_state DISCONNECTED c, Returns false)
    | RegisterFails h =>
        let c := set_ws (Some h) c in
        (set_state DISCONNECTED c, Returns false)
    | Registered h =>
        let c := set_ws (Some h) c in
        let c := set_state CONNECTED c in
        let c := set_reconnect_attempts 0 c in
        (c, Returns true)
    | OpenRaises e =>
        if exc_is_Exception e
        then (set_state DISCONNECTED c, Returns false)
        else (c, Raises e)
    | RegisterRaises h e =>
        let c := set_ws (Some h) c in
        if exc_is_Exception e
        then (set_state DISCONNECTED c, Returns false)
        else (c, Raises e)
    end.

(** [disconnect]; the [close] of the connection object is taken to
    return, as the websockets library documents it. *)
Definition disconnect (c : t) : t :=
  let c := set_running false c in
  let c := if bool_decide (_ws c ≠ None) then set_ws None c else c in
  set_state DISCONNECTED c.

(** A text frame after [json.loads]: undecodable, or the decoded
    value. *)
Inductive inbound : Type :=
  | Malformed
  | Decoded (v : value).

(** What a message handler returns ([Optional[Dict[str, Any]]]). *)
Inductive handled : Type :=
  | Response (frame : dict)
  | NoResponse.

Definition command_result_header (message : dict) : dict :=
  <["request_id" := dict_get message "request_id"]>
    (<["type" := VStr "command_result"]> ∅).

(** [_handle_execute_command]: the two entries of the frame go to
    [execute] as they are, whatever their class; the
    [**result.to_wire()] entries are laid over the two header entries. *)
Definition _handle_execute_command (c : t) (message : dict) : outcome handled :=
  match adapter c with
  | None =>
      Returns (Response
        (<["error" := VStr "No adapter configured"]>
           (<["success" := VBool false]> (command_result_header message))))
  | Some a =>
      match BaseAdapter.execute_any a
              (dict_get_or message "command_type" (VStr ""))
              (dict_get_or message "params" (VDict ∅)) with
      | Returns result =>
          Returns (Response
            (AdapterResult.to_wire result ∪ command_result_header message))
      | Raises e => Raises e
      end
  end.

(** [_handle_health_check]: the adapter's [health_check] runs first,
    and an exception it raises leaves the handler. *)
Definition _handle_health_check (c : t) (message : dict) : outcome dict :=
  let response (adapter_healthy : bool) : dict :=
    <["adapter_healthy" := VBool adapter_healthy]>
      (<["request_id" := dict_get message "request_id"]>
         (<["type" := VStr "health_check_response"]> ∅)) in
  match adapter c with
  | Some a =>
      match BaseAdapter.health_check a with
      | Returns adapter_healthy => Returns (response adapter_healthy)
      | Raises e => Raises e
      end
  | None => Returns (response false)
  end.

(** [_send]: raises [RuntimeError] without a connection; otherwise the
    frame goes to the socket. *)
Definition _send (c : t) (frame : dict) : option dict :=
  match _ws c with
  | None => None
  | Some _ => Some frame
  end.

(** The three bound methods stored by [_register_default_handlers]. *)
Inductive message_handler : Type :=
  | HandleExecuteCommand
  | HandleHealthCheck
  | HandleDisconnect.

(** [_register_default_handlers] *)
Definition _message_handlers : gmap string message_handler :=
  <["disconnect" := HandleDisconnect]>
    (<["health_check" := HandleHealthCheck]>
       (<["execute_command" := HandleExecuteCommand]> ∅)).

(** [self._message_handlers.get(msg_type)]: only a string can be one of
    the keys. *)
Definition lookup_handler (msg_type : value) : option message_handler :=
  match msg_type with
  | VStr s => _message_handlers !! s
  | _ => None
  end.

(** [_handle_message]: returns the client afterwards and the frame
    written to the socket, if any.  Undecodable text, a decoded value
    that is not an object, an unknown type, an [Exception] raised by a
    handler and a failing [_send] are logged inside the function; only
    an exception that is not an [Exception] leaves it. *)
Definition _handle_message (c : t) (raw : inbound) : t * outcome (option dict) :=
  match raw with
  | Malformed => (c, Returns None)
  | Decoded (VDict message) =>
      match lookup_handler (dict_get message "type") with
      | Some HandleExecuteCommand =>
          match _handle_execute_command c message with
          | Returns (Response frame) => (c, Returns (_send c frame))
          | Returns _ => (c, Returns None)
          | Raises e =>
              if exc_is_Exception e then (c, Returns None) else (c, Raises e)
          end
      | Some HandleHealthCheck =>
          match _handle_health_check c message with
          | Returns frame => (c, Returns (_send c frame))
          | Raises e =>
              if exc_is_Exception e then (c, Returns None) else (c, Raises e)
          end
      | Some HandleDisconnect => (disconnect c, Returns None)
      | None => (c, Returns None)
      end
  | Decoded _ => (c, Returns None)
  end.

(** How the [async for] over the connection ends: the library raises
    [ConnectionClosed], or some other [Exception], or the iterator is
    simply exhausted; [StreamRaises] is an exception of any class other
    than [ConnectionClosed] raised while the loop waits for a message (a
    cancellation, say). *)
Inductive stream_end : Type :=
  | ConnectionClosed
  | OtherError
  | Exhausted
  | StreamRaises (e : py_exception).

(** The body of the [async for]: every message is handled in turn. *)
Fixpoint handle_all (c : t) (msgs : list inbound) : t * outcome unit :=
  match msgs with
  | [] => (c, Returns tt)
  | m :: rest =>
      match _handle_message c m with
      | (c', Returns _) => handle_all c' rest
      | (c', Raises e) => (c', Raises e)
      end
  end.

(** The [try] statement of [run]: the message loop and its two
    [except] clauses. *)
Definition message_loop (c : t) (msgs : list inbound) (e : stream_end)
  : t * outcome unit :=
  match handle_all c msgs with
  | (c', Raises exn) => (c', Raises exn)
  | (c', Returns _) =>
      match e with
      | ConnectionClosed =>
          let c' := set_state RECONNECTING c' in
          (set_ws None c', Returns tt)
      | OtherError =>
          (set_state RECONNECTING c', Returns tt)
      | Exhausted => (c', Returns tt)
      | StreamRaises exn =>
          if exc_is_Exception exn
          then (set_state RECONNECTING c', Returns tt)
          else (c', Raises exn)
      end
  end.

(** What the outside world supplies to [run], in the order in which the
    loop asks for it: the fate of a connection attempt, or the
    messages of one pass over the connection and the way it ends. *)
Inductive env_event : Type :=
  | EvConnect (o : connect_event)
  | EvSession (msgs : list inbound) (e : stream_end).

Inductive run_result : Type :=
  | RunReturns (c : t)                      (* the loop ended *)
  | RunRaises (e : py_exception) (c : t)    (* an exception left [run] *)
  | RunWaiting (c : t)                      (* loop alive, script used up *)
  | RunMismatch (c : t).                    (* script does not fit the loop *)

(** The [while self._running] loop of [run]. *)
Fixpoint run_loop (script : list env_event) (c : t) {struct script} : run_result :=
  if negb (_running c) then RunReturns c
  else if negb (is_connected c) then
    match script with
    | [] => RunWaiting c
    | EvSession _ _ :: _ => RunMismatch c
    | EvConnect o :: script =>
        match connect true o c with
        | (c, Raises e) => RunRaises e c
        | (c, Returns false) =>
            let c := set_reconnect_attempts (_reconnect_attempts c + 1) c in
            if (_reconnect_attempts c >? max_reconnect_attempts (config c))%Z
            then RunReturns c
            else run_loop script c
        | (c, Returns true) =>
            match script with
            | [] => RunWaiting c
            | EvConnect _ :: _ => RunMismatch c
            | EvSession msgs e :: script =>
                match message_loop c msgs e with
                | (c, Raises exn) => RunRaises exn c
                | (c, Returns _) => run_loop script c
                end
            end
        end
    end
  else
    match script with
    | [] => RunWaiting c
    | EvConnect _ :: _ => RunMismatch c
    | EvSession msgs e :: script =>
        match message_loop c msgs e with
        | (c, Raises exn) => RunRaises exn c
        | (c, Returns _) => run_loop script c
        end
    end.

(** [run]: the import, the running flag, the loop. *)
Definition run (websockets_installed : bool) (script : list env_event) (c : t)
  : run_result :=
  if negb websockets_installed
  then RunRaises (PyExc true "No module named 'websockets'") c
  else run_loop script (set_running true c).

(** The client as a run left it, however the run ended. *)
Definition client_of (r : run_result) : t :=
  match r with
  | RunReturns c | RunRaises _ c | RunWaiting c | RunMismatch c => c
  end.

End BaseServerClient.

(* --------------------------------------------------------------------- *)
(* socket_server.py                                                      *)
(* --------------------------------------------------------------------- *)

Module SocketServerMixin.

(** Identity of a [threading.Event] object. *)
Definition event_ref : Type := nat.

(** The tuple put on the operation queue. *)
Record operation : Type := Operation {
  op_type : value;
  op_params : value;
  op_request_id : string
}.

(** The state set up by [server_init], shared by the connection threads
    and the execution thread, together with the store of the event
    objects: [event_sets] counts the calls of [set()] on each event, and
    an event is set once the count is positive. *)
Record t : Type := Build {
  _server_running : bool;
  _operation_queue : list operation;
  _result_map : gmap string value;
  _result_events : gmap string event_ref;
  event_sets : gmap event_ref nat;
  next_event : event_ref
}.

(** [server_init], with the running flag of the class attribute. *)
Definition server_init : t :=
  {| _server_running := false; _operation_queue := []; _result_map := ∅;
     _result_events := ∅; event_sets := ∅; next_event := 0 |}.

(** [server_start], as far as the shared state goes. *)
Definition server_start (s : t) : t :=
  {| _server_running := true; _operation_queue := _operation_queue s;
     _result_map := _result_map s; _result_events := _result_events s;
     event_sets := event_sets s; next_event := next_event s |}.

Definition is_set (s : t) (ev : event_ref) : bool :=
  match event_sets s !! ev with
  | Some n => (0 <? n)%nat
  | None => false
  end.

(** A decoded command line.  The request id is a string when present
    (section 6); the other two fields are arbitrary JSON values. *)
Record command : Type := Command {
  cmd_type : option value;
  cmd_params : option value;
  cmd_request_id : option string
}.

Definition error_response (msg : string) : value :=
  VDict (<["error" := VStr msg]> (<["status" := VStr "error"]> ∅)).

(** A line of the connection after [json.loads]: the decoder fails (with
    the text of its error), or the line decodes to something that is not
    an object, so that [cmd.get] raises [AttributeError] (with its text),
    or it is a command. *)
Inductive decoded_line : Type :=
  | InvalidJSON (decode_error : string)
  | NotAnObject (attribute_error : string)
  | Object (cmd : command).

(** Where [_server_queue_and_wait] stands when it reaches [event.wait]:
    it has already answered, or it waits on an event under a request id. *)
Inductive begun : Type :=
  | Answered (response : value)
  | Waiting (request_id : string) (event : event_ref).

(** First half of [_server_queue_and_wait], up to [event.wait]: the
    immediate answer to an undecodable line, or the registration of a new
    event under the request id (the one supplied, else the generated
    [uuid4]) and the operation put on the queue. *)
Definition _server_queue_and_wait_begin (s : t) (line : decoded_line) (uuid4 : string)
  : t * outcome begun :=
  match line with
  | InvalidJSON decode_error =>
      (s, Returns (Answered (error_response ("Invalid JSON: " ++ decode_error))))
  | NotAnObject attribute_error =>
      (s, Raises (PyExc true attribute_error))
  | Object cmd =>
      let request_id := default uuid4 (cmd_request_id cmd) in
      let event := next_event s in
      let op := {| op_type := default (VStr "") (cmd_type cmd);
                   op_params := default (VDict ∅) (cmd_params cmd);
                   op_request_id := request_id |} in
      ({| _server_running := _server_running s;
          _operation_queue := _operation_queue s ++ [op];
          _result_map := _result_map s;
          _result_events := <[request_id := event]> (_result_events s);
          event_sets := <[event := 0%nat]> (event_sets s);
          next_event := S event |},
       Returns (Waiting request_id event))
  end.

(** Second half of [_server_queue_and_wait], from the return of
    [event.wait(timeout)] on: [wait] answers whether the event is set.
    [del self._result_events[request_id]] raises [KeyError] on a
    missing key. *)
Definition _server_queue_and_wait_end (s : t) (request_id : string) (event : event_ref)
  : t * outcome value :=
  if is_set s event then
    let result := default (error_response "No result") (_result_map s !! request_id) in
    let s1 := {| _server_running := _server_running s;
                 _operation_queue := _operation_queue s;
                 _result_map := delete request_id (_result_map s);
                 _result_events := _result_events s;
                 event_sets := event_sets s;
                 next_event := next_event s |} in
    match _result_events s1 !! request_id with
    | None => (s1, Raises (PyExc true ("'" ++ request_id ++ "'")))
    | Some _ =>
        ({| _server_running := _server_running s1;
            _operation_queue := _operation_queue s1;
            _result_map := _result_map s1;
            _result_events := delete request_id (_result_events s1);
            event_sets := event_sets s1;
            next_event := next_event s1 |},
         Returns result)
    end
  else
    ({| _server_running := _server_running s;
        _operation_queue := _operation_queue s;
        _result_map := _result_map s;
        _result_events := delete request_id (_result_events s);
        event_sets := event_sets s;
        next_event := next_event s |},
     Returns (error_response "Operation timed out")).

(** [_server_queue_and_wait]: the two halves around the blocking wait,
    [meanwhile] being what the other threads do to the shared state while
    the connection thread is blocked in [event.wait]. *)
Definition _server_queue_and_wait (s : t) (line : decoded_line) (uuid4 : string)
    (meanwhile : t → t) : t * outcome value :=
  match _server_queue_and_wait_begin s line uuid4 with
  | (s, Returns (Answered response)) => (s, Returns response)
  | (s, Returns (Waiting request_id event)) =>
      _server_queue_and_wait_end (meanwhile s) request_id event
  | (s, Raises e) => (s, Raises e)
  end.

(** The executor passed to [server_process_queue]. *)
Definition executor : Type := value → value → outcome value.

(** One turn of the [for] loop of [server_process_queue] on the
    operation taken from the queue. *)
Definition process_one (exec : executor) (s : t) (op : operation) (rest : list operation)
  : t * outcome unit :=
  let stored (result : value) : t :=
    let events :=
      match _result_events s !! op_request_id op with
      | Some ev => <[ev := S (default 0%nat (event_sets s !! ev))]> (event_sets s)
      | None => event_sets s
      end in
    {| _server_running := _server_running s;
       _operation_queue := rest;
       _result_map := <[op_request_id op := result]> (_result_map s);
       _result_events := _result_events s;
       event_sets := events;
       next_event := next_event s |} in
  let dequeued : t :=
    {| _server_running := _server_running s;
       _operation_queue := rest;
       _result_map := _result_map s;
       _result_events := _result_events s;
       event_sets := event_sets s;
       next_event := next_event s |} in
  match exec (op_type op) (op_params op) with
  | Returns result => (stored result, Returns tt)
  | Raises e =>
      if exc_is_Exception e
      then (stored (error_response (exc_str e)), Returns tt)
      else (dequeued, Raises e)
  end.

(** [for _ in range(max_ops)]: stops early on an empty queue. *)
Fixpoint process_loop (exec : executor) (n : nat) (s : t) : t * outcome unit :=
  match n with
  | O => (s, Returns tt)
  | S n =>
      match _operation_queue s with
      | [] => (s, Returns tt)
      | op :: rest =>
          match process_one exec s op rest with
          | (s', Returns _) => process_loop exec n s'
          | (s', Raises e) => (s', Raises e)
          end
      end
  end.

(** [server_process_queue] *)
Definition server_process_queue (exec : executor) (max_ops : Z) (s : t)
  : t * outcome bool :=
  if negb (_server_running s) then (s, Returns false)
  else
    match process_loop exec (Z.to_nat max_ops) s with
    | (s', Returns _) => (s', Returns true)
    | (s', Raises e) => (s', Raises e)
    end.

(** The operation that [_server_queue_and_wait] queues for a command. *)
Definition operation_of (cmd : command) (uuid4 : string) : operation :=
  {| op_type := default (VStr "") (cmd_type cmd);
     op_params := default (VDict ∅) (cmd_params cmd);
     op_request_id := default uuid4 (cmd_request_id cmd) |}.

(** The result that [server_process_queue] stores for an operation: what
    the executor returns, or the error mapping made from the exception it
    raises. *)
Definition executed (exec : executor) (op : operation) : value :=
  match exec (op_type op) (op_params op) with
  | Returns result => result
  | Raises e => error_response (exc_str e)
  end.

(** The executor raises nothing outside the [Exception] hierarchy on this
    operation. *)
Definition contained (exec : executor) (op : operation) : Prop :=
  ∀ e, exec (op_type op) (op_params op) = Raises e → exc_is_Exception e = true.

(** [server_stop], as far as the shared state goes. *)
Definition server_stop (s : t) : t :=
  {| _server_running := false; _operation_queue := _operation_queue s;
     _result_map := _result_map s; _result_events := _result_events s;
     event_sets := event_sets s; next_event := next_event s |}.

(** The [server_queue_size] property. *)
Definition server_queue_size (s : t) : nat := length (_operation_queue s).

(** The loop [while LF in buffer: line, buffer = buffer.split(LF, 1)] of
    [_server_handle_client]: the lines taken off the buffer, in order, and
    the buffer that is left.  Every turn shortens the buffer, so its
    length bounds the number of turns. *)
Fixpoint take_lines (turns : nat) (buffer : string) : list string * string :=
  match turns with
  | O => ([], buffer)
  | S turns =>
      match PyStr.partition_line buffer with
      | None => ([], buffer)
      | Some (line, buffer) =>
          let (lines, buffer) := take_lines turns buffer in
          (line :: lines, buffer)
      end
  end.

Definition complete_lines (buffer : string) : list string * string :=
  take_lines (String.length buffer) buffer.

(** The lines that are handed on: those with [line.strip()] not empty,
    stripped. *)
Definition commands_of (lines : list string) : list string :=
  PyStr.strip <$> filter (λ line, PyStr.strip line ≠ EmptyString) lines.

(** The inner loop of [_server_handle_client] on the commands of one
    chunk: each goes to [_server_queue_and_wait] and its response to
    [client.send].  [raises] tells on which commands one of the two
    raises ([_server_queue_and_wait] does on a line that decodes to
    something other than an object), which is taken to depend on the
    command alone; the first such command ends the loop, the later ones
    are never handed on.  The result is the commands
    handed on and whether the loop ended on an exception. *)
Fixpoint hand_on (raises : string → bool) (commands : list string)
  : list string * bool :=
  match commands with
  | [] => ([], false)
  | command :: commands =>
      if raises command then ([command], true)
      else
        let (more, raised) := hand_on raises commands in
        (command :: more, raised)
  end.

(** [_server_handle_client], as far as framing goes: the commands handed to
    [_server_queue_and_wait], in order, and the buffer once the chunks
    received so far are used up, or [None] once an exception has ended
    the connection ([except Exception: break], or the death of the
    thread).  An empty chunk is the end of the connection.  The server is
    taken to keep running and every chunk to decode as UTF-8. *)
Fixpoint _server_handle_client (raises : string → bool) (buffer : string)
    (received : list string) : list string * option string :=
  match received with
  | [] => ([], Some buffer)
  | data :: received =>
      if bool_decide (data = EmptyString) then ([], Some buffer)
      else
        let (lines, buffer) := complete_lines (buffer +:+ data) in
        match hand_on raises (commands_of lines) with
        | (handed, true) => (handed, None)
        | (handed, false) =>
            let (more, buffer) := _server_handle_client raises buffer received in
            ((handed ++ more)%list, buffer)
        end
  end.

End SocketServerMixin.

(* --------------------------------------------------------------------- *)
(* socket_client.py                                                      *)
(* --------------------------------------------------------------------- *)

Module SocketClientMixin.

(** The three places at which the mixin raises the built-in
    [ConnectionError] (the texts of the messages are left out). *)
Inductive reason : Type :=
  | Refused
  | TimedOut
  | ClosedWithoutResponse.

(** The exceptions that can leave the methods, by class:
    [ConnectionError] raised by the mixin, another [OSError] of the
    socket, [json.JSONDecodeError], and any exception that is neither an
    [OSError] nor a [JSONDecodeError] (a [UnicodeDecodeError], say). *)
Inductive error : Type :=
  | ConnectionError (why : reason)
  | OSError
  | JSONDecodeError
  | OtherException.

(** What [sock.connect] does. *)
Inductive connecting : Type :=
  | Connects
  | RaisesConnectionRefusedError
  | RaisesTimeout
  | RaisesOSError
  | RaisesOther.

(** What one call of [sock.recv] does: it returns a chunk, the empty
    chunk when the peer has closed, or it raises. *)
Inductive recv_event : Type :=
  | Data (chunk : string)
  | RecvRaises (e : error).

(** What decoding the bytes and [json.loads] make of a text. *)
Inductive loaded : Type :=
  | Parsed (v : value)
  | NotJSON
  | DecodeRaises.

(** What a call comes to: a value, an exception, or no end yet because
    [recv] has not returned. *)
Inductive result (A : Type) : Type :=
  | Returned (a : A)
  | Raised (e : error)
  | Blocked.
Arguments Returned {A} a.
Arguments Raised {A} e.
Arguments Blocked {A}.

(** The network as one call of [socket_execute] meets it. *)
Record network : Type := Network {
  on_connect : connecting;
  on_sendall : option error;
  on_recv : list recv_event
}.

(** [socket_connect]: the socket on success; the two [except] clauses
    turn a refusal and a timeout into [ConnectionError]. *)
Definition socket_connect (net : network) : result unit :=
  match on_connect net with
  | Connects => Returned tt
  | RaisesConnectionRefusedError => Raised (ConnectionError Refused)
  | RaisesTimeout => Raised (ConnectionError TimedOut)
  | RaisesOSError => Raised OSError
  | RaisesOther => Raised OtherException
  end.

(** The text of the chunks received so far. *)
Definition joined_chunks (chunks : list string) : string :=
  foldr String.append EmptyString chunks.

(** The loop of [socket_receive], [chunks] being the list built so far,
    and the statements after it. *)
Fixpoint socket_receive_loop (loads : string → loaded) (chunks : list string)
    (recvs : list recv_event) : result value :=
  match recvs with
  | [] => Blocked
  | RecvRaises e :: _ => Raised e
  | Data chunk :: recvs =>
      if bool_decide (chunk = EmptyString) then
        match chunks with
        | [] => Raised (ConnectionError ClosedWithoutResponse)
        | _ =>
            match loads (joined_chunks chunks) with
            | Parsed v => Returned v
            | NotJSON => Raised JSONDecodeError
            | DecodeRaises => Raised OtherException
            end
        end
      else
        let chunks := (chunks ++ [chunk])%list in
        match loads (joined_chunks chunks) with
        | Parsed v => Returned v
        | NotJSON => socket_receive_loop loads chunks recvs
        | DecodeRaises => Raised OtherException
        end
  end.

(** [socket_receive] *)
Definition socket_receive (loads : string → loaded) (recvs : list recv_event)
  : result value :=
  socket_receive_loop loads [] recvs.

(** [socket_execute]: the result, and whether [sock.close()] has run. *)
Definition socket_execute (loads : string → loaded) (net : network)
  : result value * bool :=
  match socket_connect net with
  | Returned _ =>
      match on_sendall net with
      | Some e => (Raised e, true)
      | None =>
          match socket_receive loads (on_recv net) with
          | Blocked => (Blocked, false)
          | finished => (finished, true)
          end
      end
  | Raised e => (Raised e, false)
  | Blocked => (Blocked, false)
  end.

(** [socket_health_check]: [except (ConnectionError, OSError)] catches the
    first two classes of [error]. *)
Definition socket_health_check (net : network) : result bool * bool :=
  match socket_connect net with
  | Returned _ => (Returned true, true)
  | Raised (ConnectionError _) | Raised OSError => (Returned false, false)
  | Raised e => (Raised e, false)
  | Blocked => (Blocked, false)
  end.

End SocketClientMixin.

(* --------------------------------------------------------------------- *)
(* runner.py                                                             *)
(* --------------------------------------------------------------------- *)

Module AdapterRunner.

(** The runner holds its client; [__init__] builds the configuration
    from its arguments, the other fields keeping their defaults. *)
Definition init (adapter : BaseAdapter.t) (server_url : string) (api_key : option string)
    (adapter_type : string) (adapter_id : option string) : BaseServerClient.t :=
  BaseServerClient.init
    {| BaseServerClient.server_url := server_url;
       BaseServerClient.api_key := api_key;
       BaseServerClient.adapter_id := adapter_id;
       BaseServerClient.adapter_type := adapter_type;
       BaseServerClient.max_reconnect_attempts := 10 |}
    (Some adapter).

(** [run]: the client's [run] inside [try], [except KeyboardInterrupt]
    and [finally: disconnect()].  [is_KeyboardInterrupt] tells whether an
    exception is an instance of that class.  A client loop that has not
    finished has not reached the [finally] clause. *)
Definition run (is_KeyboardInterrupt : py_exception → bool) (websockets_installed : bool)
    (script : list BaseServerClient.env_event) (client : BaseServerClient.t)
  : BaseServerClient.run_result :=
  match BaseServerClient.run websockets_installed script client with
  | BaseServerClient.RunReturns c =>
      BaseServerClient.RunReturns (BaseServerClient.disconnect c)
  | BaseServerClient.RunRaises e c =>
      if is_KeyboardInterrupt e
      then BaseServerClient.RunReturns (BaseServerClient.disconnect c)
      else BaseServerClient.RunRaises e (BaseServerClient.disconnect c)
  | unfinished => unfinished
  end.

End AdapterRunner.

(* --------------------------------------------------------------------- *)
(* protocol/commands.py and protocol/registration.py                     *)
(* --------------------------------------------------------------------- *)

Module CommandResponse.

Record t : Type := Build {
  success : bool;
  data : dict;
  error : value;
  request_id : value
}.

(** [to_wire]: the two optional keys are written under [if self.error:]
    and [if self.request_id:]. *)
Definition to_wire (r : t) : dict :=
  let d := <["data" := VDict (data r)]> (<["success" := VBool (success r)]> ∅) in
  let d := if truthy (error r) then <["error" := error r]> d else d in
  if truthy (request_id r) then <["request_id" := request_id r]> d else d.

End CommandResponse.

(** [Optional[str]] as a value. *)
Definition optional_str_value (o : option string) : value :=
  match o with
  | Some s => VStr s
  | None => VNone
  end.

(** [List[str]] as a value. *)
Definition str_list_value (l : list string) : value := VList (VStr <$> l).

Module RegistrationPayload.

Record t : Type := Build {
  adapter_type : string;
  adapter_id : option string;
  version : string;
  capabilities : list string;
  commands : list string;
  metadata : dict
}.

(** [to_wire]: the metadata entries are spread last into the literal, so
    they take precedence over the six fixed entries. *)
Definition to_wire (p : t) : dict :=
  metadata p
  ∪ <["commands" := str_list_value (commands p)]>
      (<["capabilities" := str_list_value (capabilities p)]>
         (<["version" := VStr (version p)]>
            (<["adapter_id" := optional_str_value (adapter_id p)]>
               (<["adapter_type" := VStr (adapter_type p)]>
                  (<["type" := VStr "adapter_registration"]> ∅))))).

End RegistrationPayload.

Module HeartbeatPayload.

Record t : Type := Build {
  adapter_id : string;
  status : string;
  active_jobs : Z;
  metadata : dict
}.

(** [to_wire], with the metadata entries spread last as well. *)
Definition to_wire (p : t) : dict :=
  metadata p
  ∪ <["active_jobs" := VInt (active_jobs p)]>
      (<["status" := VStr (status p)]>
         (<["adapter_id" := VStr (adapter_id p)]>
            (<["type" := VStr "heartbeat"]> ∅))).

End HeartbeatPayload.

(* --------------------------------------------------------------------- *)
(* Sample objects, after tests/test_adapter.py                           *)
(* --------------------------------------------------------------------- *)

(** A handler that raises, and one that returns, whatever its parameters. *)
Definition raising (is_async : bool) (e : py_exception) : BaseAdapter.handler :=
  {| BaseAdapter.is_coroutine := is_async; BaseAdapter.body := λ _, Raises e;
     BaseAdapter.body_other := λ _, Raises e |}.

Definition returning (is_async : bool) (r : BaseAdapter.retval) : BaseAdapter.handler :=
  {| BaseAdapter.is_coroutine := is_async; BaseAdapter.body := λ _, Returns r;
     BaseAdapter.body_other := λ _, Returns r |}.

Definition bare_adapter : BaseAdapter.t :=
  {| BaseAdapter._handlers := ∅; BaseAdapter.health_check := Returns true;
     BaseAdapter.capabilities := [] |}.

Definition adapter_with (command_type : string) (h : BaseAdapter.handler) : BaseAdapter.t :=
  BaseAdapter.register_handler bare_adapter command_type h.

Definition KeyboardInterrupt : py_exception := PyExc false "stop".
Definition CancelledError : py_exception := PyExc false "".
Definition ValueError : py_exception := PyExc true "Something went wrong".

Definition legacy_error_dict : dict :=
  <["error" := VStr "Operation failed"]> (<["status" := VStr "error"]> ∅).

(** The default configuration of [ServerClientConfig]. *)
Definition default_config : BaseServerClient.ServerClientConfig :=
  {| BaseServerClient.server_url := "wss://conjure.lautrek.com/api/v1/adapter/ws";
     BaseServerClient.api_key := None;
     BaseServerClient.adapter_id := None;
     BaseServerClient.adapter_type := "generic";
     BaseServerClient.max_reconnect_attempts := 10 |}.

(** The frame of [test_handle_execute_command_without_adapter]. *)
Definition execute_command_frame : dict :=
  <["params" := VDict ∅]>
    (<["command_type" := VStr "create_box"]>
       (<["request_id" := VStr "req-456"]>
          (<["type" := VStr "execute_command"]> ∅))).

(** A frame that disregards the types of section 6: the command type is
    a number and the parameters are a list. *)
Definition untyped_command_frame : dict :=
  <["params" := VList [VInt 1]]>
    (<["command_type" := VInt 7]>
       (<["request_id" := VStr "req-789"]>
          (<["type" := VStr "execute_command"]> ∅))).

(** A client that is connected over the connection object 7. *)
Definition connected_client : BaseServerClient.t :=
  {| BaseServerClient.config := default_config; BaseServerClient.adapter := None;
     BaseServerClient._ws := Some 7%nat; BaseServerClient._state := BaseServerClient.CONNECTED;
     BaseServerClient._reconnect_attempts := 0; BaseServerClient._running := true |}.

(** A command line without a request id, and an executor that answers
    every command with the same mapping. *)
Definition create_box_command : SocketServerMixin.command :=
  {| SocketServerMixin.cmd_type := Some (VStr "create_box");
     SocketServerMixin.cmd_params := Some (VDict ∅);
     SocketServerMixin.cmd_request_id := None |}.

Definition box_result : value := VDict (<["object_id" := VStr "Box001"]> ∅).

Definition box_executor : SocketServerMixin.executor := λ _ _, Returns box_result.

(** What [dir] finds on the adapter of [test_register_handlers_by_prefix]:
    two command methods, the health check and the registry attribute. *)
Definition sample_members : list (string * BaseAdapter.member) :=
  [("_cmd_create_box",
    BaseAdapter.Callable (returning false (BaseAdapter.RetValue (VDict ∅))));
   ("_cmd_delete", BaseAdapter.Callable (raising false ValueError));
   ("_handlers", BaseAdapter.NotCallable);
   ("health_check", BaseAdapter.Callable (returning false (BaseAdapter.RetValue (VBool true))))].

(** A running server on whose queue one command waits. *)
Definition queued_server : SocketServerMixin.t :=
  (SocketServerMixin._server_queue_and_wait_begin
     (SocketServerMixin.server_start SocketServerMixin.server_init)
     (SocketServerMixin.Object create_box_command) "4f6c").1.

(** A second command, with a request id of its own. *)
Definition delete_command : SocketServerMixin.command :=
  {| SocketServerMixin.cmd_type := Some (VStr "delete");
     SocketServerMixin.cmd_params := None;
     SocketServerMixin.cmd_request_id := Some "req-2" |}.

(** An executor that echoes the command type, and fails on delete. *)
Definition echo_executor : SocketServerMixin.executor :=
  λ cmd_type _,
    if eq_str cmd_type "delete" then Raises (PyExc true "Object not found")
    else Returns (VDict (<["echo" := cmd_type]> ∅)).

(** A command that names its request id itself, the one of
    [delete_command]. *)
Definition move_command : SocketServerMixin.command :=
  {| SocketServerMixin.cmd_type := Some (VStr "move");
     SocketServerMixin.cmd_params := Some (VDict ∅);
     SocketServerMixin.cmd_request_id := Some "req-2" |}.

(** Notions used to state the properties.  The attributes of the client
    that are its own: all of them but the adapter object, whose handlers
    may change it in ways that are not modelled. *)
Definition own_attributes (c : BaseServerClient.t) :=
  (BaseServerClient.config c, BaseServerClient._ws c, BaseServerClient._state c,
   BaseServerClient._reconnect_attempts c, BaseServerClient._running c).

(** The text received from a connection, as one string. *)
Definition joined (chunks : list string) : string :=
  foldr String.append EmptyString chunks.

(** Lines put back together, each followed by a line feed, before the
    text that follows them. *)
Definition unsplit (lines : list string) (rest : string) : string :=
  foldr (λ line text, line +:+ String PyStr.LF text) rest lines.

(** A decoder that knows one text, the empty object. *)
Definition loads_empty_object (text : string) : SocketClientMixin.loaded :=
  if String.eqb text "{}" then SocketClientMixin.Parsed (VDict ∅)
  else SocketClientMixin.NotJSON.

(* ===================================================================== *)
(* Properties                                                            *)
(* ===================================================================== *)

(* --------------------------------------------------------------------- *)
(* Dispatch: BaseAdapter.execute                                         *)
(* --------------------------------------------------------------------- *)

Section Dispatch.

Import BaseAdapter.

Implicit Types (a : BaseAdapter.t) (h : handler) (params d : dict).

Lemma append_empty_r (s : string) : s +:+ "" = s.
Proof.
  induction s as [|ch s IH]; [reflexivity|].
  change (String ch s +:+ "") with (String ch (s +:+ "")). by rewrite IH.
Qed.

Lemma call_body h params : call h params = body h params.
Proof. unfold call. by destruct (is_coroutine h). Qed.

Lemma execute_registered a command_type params h :
  _handlers a !! command_type = Some h →
  execute a command_type params =
    match body h params with
    | Returns result => Returns (normalize result)
    | Raises e =>
        if exc_is_Exception e
        then Returns (AdapterResult.fail (VStr (exc_str e)) ∅)
        else Raises e
    end.
Proof. intros Hh. unfold execute. by rewrite Hh, call_body. Qed.

(** On arguments of the annotated types the two readings of [execute]
    agree. *)
Lemma execute_any_annotated a (command_type : string) params :
  execute_any a (VStr command_type) (VDict params) = execute a command_type params.
Proof. reflexivity. Qed.

End Dispatch.

(** C1, as amended: for every registered handler, sync or async, and every
    parameter mapping, if the handler raises an exception whose class
    derives from Exception, execute returns a failure Result whose error is
    the text of the exception, and nothing propagates to the caller. *)
Theorem execute_catches_Exception
    (a : BaseAdapter.t) (command_type : string) (params : dict)
    (h : BaseAdapter.handler) (e : py_exception) :
  BaseAdapter._handlers a !! command_type = Some h →
  BaseAdapter.body h params = Raises e →
  exc_is_Exception e = true →
  ∃ r, BaseAdapter.execute a command_type params = Returns r
       ∧ AdapterResult.success r = false
       ∧ AdapterResult.error r = VStr (exc_str e)
       ∧ AdapterResult.data r = ∅.
Proof.
  intros Hh Hraise Hcls.
  rewrite (execute_registered _ _ _ _ Hh), Hraise, Hcls.
  by eexists.
Qed.

Lemma execute_catches_Exception_witness :
  ∃ r, BaseAdapter.execute (adapter_with "failing_handler" (raising true ValueError))
         "failing_handler" ∅ = Returns r
       ∧ AdapterResult.success r = false
       ∧ AdapterResult.error r = VStr "Something went wrong"
       ∧ AdapterResult.data r = ∅.
Proof.
  apply (execute_catches_Exception
           (adapter_with "failing_handler" (raising true ValueError))
           "failing_handler" ∅ (raising true ValueError) ValueError);
    reflexivity.
Defined.

(** C1, as stated, fails: a registered handler that raises an exception
    outside the Exception hierarchy (KeyboardInterrupt here) is not caught;
    execute returns no Result and the exception reaches the caller. *)
Lemma execute_lets_BaseException_escape :
  BaseAdapter._handlers (adapter_with "failing_handler" (raising false KeyboardInterrupt))
    !! "failing_handler" = Some (raising false KeyboardInterrupt)
  ∧ BaseAdapter.body (raising false KeyboardInterrupt) ∅ = Raises KeyboardInterrupt
  ∧ BaseAdapter.execute (adapter_with "failing_handler" (raising false KeyboardInterrupt))
      "failing_handler" ∅ = Raises KeyboardInterrupt
  ∧ ¬ ∃ r, BaseAdapter.execute
             (adapter_with "failing_handler" (raising false KeyboardInterrupt))
             "failing_handler" ∅ = Returns r.
Proof.
  split; [reflexivity|]. split; [reflexivity|]. split; [reflexivity|].
  intros [r Hr]. vm_compute in Hr. discriminate Hr.
Qed.

(** C5: for every registered handler that returns a mapping whose status
    field equals the string error, execute returns a failure Result whose
    error is that mapping's error field (and the text Unknown error when
    the mapping has no such field). *)
Theorem execute_legacy_error_mapping
    (a : BaseAdapter.t) (command_type : string) (params d : dict)
    (h : BaseAdapter.handler) :
  BaseAdapter._handlers a !! command_type = Some h →
  BaseAdapter.body h params = Returns (BaseAdapter.RetValue (VDict d)) →
  d !! "status" = Some (VStr "error") →
  ∃ r, BaseAdapter.execute a command_type params = Returns r
       ∧ AdapterResult.success r = false
       ∧ (∀ e, d !! "error" = Some e → AdapterResult.error r = e)
       ∧ (d !! "error" = None → AdapterResult.error r = VStr "Unknown error").
Proof.
  intros Hh Hret Hstatus.
  rewrite (execute_registered _ _ _ _ Hh), Hret.
  eexists. split; [reflexivity|].
  unfold BaseAdapter.normalize, dict_get, dict_get_or. rewrite Hstatus. simpl.
  split; [reflexivity|].
  split; [intros e He | intros He]; by rewrite He.
Qed.

Lemma execute_legacy_error_mapping_witness :
  ∃ r, BaseAdapter.execute
         (adapter_with "error_dict_handler"
            (returning false (BaseAdapter.RetValue (VDict legacy_error_dict))))
         "error_dict_handler" ∅ = Returns r
       ∧ AdapterResult.success r = false
       ∧ (∀ e, legacy_error_dict
                 !! "error" = Some e → AdapterResult.error r = e)
       ∧ (legacy_error_dict
            !! "error" = None → AdapterResult.error r = VStr "Unknown error").
Proof.
  apply (execute_legacy_error_mapping
           (adapter_with "error_dict_handler"
              (returning false (BaseAdapter.RetValue (VDict legacy_error_dict))))
           "error_dict_handler" ∅
           legacy_error_dict
           (returning false (BaseAdapter.RetValue (VDict legacy_error_dict))));
    reflexivity.
Defined.

(** C8: for every command type with no registered handler, execute returns
    a failure Result whose error text is exactly Unknown command: followed
    by the command type; in particular the text contains the command type. *)
Theorem execute_unknown_command
    (a : BaseAdapter.t) (command_type : string) (params : dict) :
  BaseAdapter._handlers a !! command_type = None →
  ∃ r, BaseAdapter.execute a command_type params = Returns r
       ∧ AdapterResult.success r = false
       ∧ AdapterResult.error r = VStr ("Unknown command: " ++ command_type)
       ∧ ∃ before after,
           AdapterResult.error r = VStr (before ++ command_type ++ after).
Proof.
  intros Hnone. unfold BaseAdapter.execute. rewrite Hnone.
  eexists. repeat (split; [reflexivity|]).
  exists "Unknown command: ", "". simpl. by rewrite append_empty_r.
Qed.

Lemma execute_unknown_command_witness :
  ∃ r, BaseAdapter.execute
         bare_adapter "nonexistent_command" ∅ = Returns r
       ∧ AdapterResult.success r = false
       ∧ AdapterResult.error r = VStr ("Unknown command: " ++ "nonexistent_command")
       ∧ ∃ before after,
           AdapterResult.error r = VStr (before ++ "nonexistent_command" ++ after).
Proof.
  apply (execute_unknown_command
           bare_adapter "nonexistent_command" ∅).
  reflexivity.
Defined.

(** C10: for every registered handler whose return value is neither a
    Result object nor a mapping, execute returns a success Result with
    empty data and no error, as it does for a handler returning None. *)
Theorem execute_other_return_value
    (a : BaseAdapter.t) (command_type : string) (params : dict)
    (h : BaseAdapter.handler) (v : value) :
  BaseAdapter._handlers a !! command_type = Some h →
  BaseAdapter.body h params = Returns (BaseAdapter.RetValue v) →
  (∀ d, v ≠ VDict d) →
  BaseAdapter.execute a command_type params
    = Returns {| AdapterResult.success := true;
                 AdapterResult.data := ∅;
                 AdapterResult.error := VNone |}
  ∧ BaseAdapter.execute a command_type params
    = BaseAdapter.execute (adapter_with command_type (returning false (BaseAdapter.RetValue VNone)))
        command_type params.
Proof.
  intros Hh Hret Hnot.
  assert (Hexec : BaseAdapter.execute a command_type params
                  = Returns (AdapterResult.ok ∅)).
  { rewrite (execute_registered _ _ _ _ Hh), Hret.
    destruct v; try reflexivity. by destruct (Hnot d). }
  split; [exact Hexec|].
  rewrite Hexec. symmetry.
  rewrite (execute_registered _ command_type _ (returning false (BaseAdapter.RetValue VNone))).
  - reflexivity.
  - unfold adapter_with, BaseAdapter.register_handler. simpl. apply lookup_insert_eq.
Qed.

Lemma execute_other_return_value_witness :
  BaseAdapter.execute
    (adapter_with "count" (returning true (BaseAdapter.RetValue (VList [VInt 1; VStr "two"]))))
    "count" ∅
    = Returns {| AdapterResult.success := true;
                 AdapterResult.data := ∅;
                 AdapterResult.error := VNone |}
  ∧ BaseAdapter.execute
      (adapter_with "count" (returning true (BaseAdapter.RetValue (VList [VInt 1; VStr "two"]))))
      "count" ∅
    = BaseAdapter.execute (adapter_with "count" (returning false (BaseAdapter.RetValue VNone)))
        "count" ∅.
Proof.
  apply (execute_other_return_value
           (adapter_with "count" (returning true (BaseAdapter.RetValue (VList [VInt 1; VStr "two"]))))
           "count" ∅
           (returning true (BaseAdapter.RetValue (VList [VInt 1; VStr "two"])))
           (VList [VInt 1; VStr "two"])); [reflexivity | reflexivity | discriminate].
Defined.

(* --------------------------------------------------------------------- *)
(* Wire form of a Result: AdapterResult.to_wire                          *)
(* --------------------------------------------------------------------- *)

Section Wire.

Import AdapterResult.

Implicit Types (r : AdapterResult.t).

Lemma to_wire_success r : to_wire r !! "success" = Some (VBool (success r)).
Proof. unfold to_wire. destruct (truthy (error r)); by simplify_map_eq. Qed.

Lemma to_wire_data r : to_wire r !! "data" = Some (VDict (data r)).
Proof. unfold to_wire. destruct (truthy (error r)); by simplify_map_eq. Qed.

Lemma to_wire_error r :
  to_wire r !! "error" = if truthy (error r) then Some (error r) else None.
Proof. unfold to_wire. destruct (truthy (error r)); by simplify_map_eq. Qed.

(** Re-parsing gives back the flag and the data, and the error when it
    is truthy; a falsy error comes back as None. *)
Lemma from_wire_to_wire r :
  from_wire (to_wire r)
  = Some {| success := success r; data := data r;
            error := if truthy (error r) then error r else VNone |}.
Proof.
  unfold from_wire, dict_get.
  rewrite to_wire_success, to_wire_data, to_wire_error.
  by destruct (truthy (error r)).
Qed.

Lemma truthy_optional_str (v : value) :
  optional_str v → truthy v = true ↔ v ≠ VNone ∧ v ≠ VStr "".
Proof.
  intros [-> | [s ->]]; simpl.
  - split; [discriminate | by intros [? _]].
  - destruct s; simpl; split; try done.
    by intros [_ ?].
Qed.

End Wire.

(** C6, as amended: for every Result whose error is null or a non-empty
    string, to_wire followed by re-parsing reconstructs the same
    success/data/error triple; a Result whose error is the empty string
    re-parses with a null error; and the error key is present in the wire
    form if and only if the original error is non-null and non-empty. *)
Theorem to_wire_roundtrip (r : AdapterResult.t) :
  AdapterResult.optional_str (AdapterResult.error r) →
  (AdapterResult.error r ≠ VStr "" →
     AdapterResult.from_wire (AdapterResult.to_wire r) = Some r)
  ∧ (AdapterResult.error r = VStr "" →
     AdapterResult.from_wire (AdapterResult.to_wire r)
     = Some {| AdapterResult.success := AdapterResult.success r;
               AdapterResult.data := AdapterResult.data r;
               AdapterResult.error := VNone |})
  ∧ (is_Some (AdapterResult.to_wire r !! "error")
     ↔ AdapterResult.error r ≠ VNone ∧ AdapterResult.error r ≠ VStr "").
Proof.
  intros Hopt. rewrite from_wire_to_wire, to_wire_error.
  pose proof (truthy_optional_str _ Hopt) as Htruthy.
  destruct r as [s d e]; simpl in *.
  destruct (truthy e) eqn:He.
  - destruct Htruthy as [Hne _]. specialize (Hne eq_refl) as [Hnone Hempty].
    repeat split; done.
  - split; [|split].
    + intros Hempty. destruct Hopt as [-> | [s' ->]]; [done|].
      destruct s'; [done | discriminate He].
    + done.
    + split; [by intros [? ?] | intros Hboth].
      apply Htruthy in Hboth. discriminate Hboth.
Qed.

Lemma to_wire_roundtrip_witness :
  (AdapterResult.error (AdapterResult.fail (VStr "Object not found") ∅) ≠ VStr "" →
     AdapterResult.from_wire
       (AdapterResult.to_wire (AdapterResult.fail (VStr "Object not found") ∅))
     = Some (AdapterResult.fail (VStr "Object not found") ∅))
  ∧ (AdapterResult.error (AdapterResult.fail (VStr "Object not found") ∅) = VStr "" →
     AdapterResult.from_wire
       (AdapterResult.to_wire (AdapterResult.fail (VStr "Object not found") ∅))
     = Some {| AdapterResult.success := false;
               AdapterResult.data := ∅;
               AdapterResult.error := VNone |})
  ∧ (is_Some (AdapterResult.to_wire (AdapterResult.fail (VStr "Object not found") ∅)
                !! "error")
     ↔ AdapterResult.error (AdapterResult.fail (VStr "Object not found") ∅) ≠ VNone
       ∧ AdapterResult.error (AdapterResult.fail (VStr "Object not found") ∅) ≠ VStr "").
Proof.
  apply (to_wire_roundtrip (AdapterResult.fail (VStr "Object not found") ∅)).
  right. by eexists.
Defined.

(** C6, as stated, fails on the failure Result whose error is the empty
    string (what execute builds from an exception without a message): the
    error is non-null, yet the wire form has no error key; it is the wire
    form of the Result with a null error, so no parser tells the two apart,
    and re-parsing gives a null error instead of the original one. *)
Lemma to_wire_drops_empty_error :
  AdapterResult.optional_str (AdapterResult.error (AdapterResult.fail (VStr "") ∅))
  ∧ AdapterResult.error (AdapterResult.fail (VStr "") ∅) ≠ VNone
  ∧ AdapterResult.to_wire (AdapterResult.fail (VStr "") ∅) !! "error" = None
  ∧ AdapterResult.to_wire (AdapterResult.fail (VStr "") ∅)
    = AdapterResult.to_wire (AdapterResult.fail VNone ∅)
  ∧ AdapterResult.fail (VStr "") ∅ ≠ AdapterResult.fail VNone ∅
  ∧ (∀ parse : dict → option AdapterResult.t,
       ¬ (parse (AdapterResult.to_wire (AdapterResult.fail (VStr "") ∅))
            = Some (AdapterResult.fail (VStr "") ∅)
          ∧ parse (AdapterResult.to_wire (AdapterResult.fail VNone ∅))
            = Some (AdapterResult.fail VNone ∅)))
  ∧ AdapterResult.from_wire (AdapterResult.to_wire (AdapterResult.fail (VStr "") ∅))
    = Some (AdapterResult.fail VNone ∅)
  ∧ AdapterResult.from_wire (AdapterResult.to_wire (AdapterResult.fail (VStr "") ∅))
    ≠ Some (AdapterResult.fail (VStr "") ∅)
  ∧ BaseAdapter.execute (adapter_with "quiet" (raising false (PyExc true ""))) "quiet" ∅
    = Returns (AdapterResult.fail (VStr "") ∅).
Proof.
  split; [right; by eexists|].
  split; [discriminate|].
  split; [reflexivity|].
  split; [reflexivity|].
  split; [discriminate|].
  split.
  { intros parse [Hempty Hnone].
    change (AdapterResult.to_wire (AdapterResult.fail VNone ∅))
      with (AdapterResult.to_wire (AdapterResult.fail (VStr "") ∅)) in Hnone.
    rewrite Hempty in Hnone. discriminate Hnone. }
  split; [reflexivity|].
  split; [|reflexivity].
  rewrite from_wire_to_wire. simpl. intros H. discriminate H.
Qed.

(* --------------------------------------------------------------------- *)
(* Persistent server client: replies to execute_command                  *)
(* --------------------------------------------------------------------- *)

Section CommandResult.

Import BaseServerClient.

(** With an adapter attached, every reply carries the data of the
    Result under the data key, as a mapping. *)
Lemma execute_command_reply_has_data (c : BaseServerClient.t) (a : BaseAdapter.t)
    (message frame : dict) :
  adapter c = Some a →
  _handle_execute_command c message = Returns (Response frame) →
  ∃ d : dict, frame !! "data" = Some (VDict d)
              ∧ frame !! "type" = Some (VStr "command_result").
Proof.
  intros Ha. unfold _handle_execute_command. rewrite Ha.
  destruct (BaseAdapter.execute_any a _ _) as [result|e]; [|done].
  intros [= <-]. exists (AdapterResult.data result). split.
  - apply lookup_union_Some_l, to_wire_data.
  - rewrite lookup_union_r.
    + unfold command_result_header. by simplify_map_eq.
    + unfold AdapterResult.to_wire.
      destruct (truthy (AdapterResult.error result)); by simplify_map_eq.
Qed.

(** Without an adapter, the reply never has a data key, whatever the
    frame. *)
Lemma execute_command_reply_without_adapter (c : BaseServerClient.t) (message : dict) :
  adapter c = None →
  ∃ frame : dict,
    _handle_execute_command c message = Returns (Response frame)
    ∧ frame !! "type" = Some (VStr "command_result")
    ∧ frame !! "success" = Some (VBool false)
    ∧ frame !! "data" = None.
Proof.
  intros Ha. unfold _handle_execute_command. rewrite Ha.
  eexists. split; [reflexivity|].
  unfold command_result_header. by simplify_map_eq.
Qed.

(** What reaches the socket for an execute_command frame is the reply
    of [_handle_execute_command]. *)
Lemma handle_message_execute_command (c : BaseServerClient.t) (message frame : dict) :
  message !! "type" = Some (VStr "execute_command") →
  _handle_message c (Decoded (VDict message)) = (c, Returns (Some frame)) →
  _handle_execute_command c message = Returns (Response frame).
Proof.
  intros Hty. unfold _handle_message, dict_get. rewrite Hty.
  change (lookup_handler (default VNone (Some (VStr "execute_command"))))
    with (Some HandleExecuteCommand).
  destruct (_handle_execute_command c message) as [[f|]|e]; simpl.
  - unfold _send. destruct (_ws c); [|done]. by intros [= ->].
  - done.
  - by destruct (exc_is_Exception e).
Qed.

End CommandResult.

(** C9 fails on the code: the reply to an execute_command frame of a client
    without adapter is a command_result frame, written to the socket of a
    connected client, that has no data field at all. *)
Theorem execute_command_without_adapter_has_no_data :
  ∃ frame : dict,
    BaseServerClient.adapter connected_client = None
    ∧ BaseServerClient._handle_execute_command connected_client execute_command_frame
      = Returns (BaseServerClient.Response frame)
    ∧ BaseServerClient._handle_message connected_client
        (BaseServerClient.Decoded (VDict execute_command_frame))
      = (connected_client, Returns (Some frame))
    ∧ frame !! "type" = Some (VStr "command_result")
    ∧ frame !! "request_id" = Some (VStr "req-456")
    ∧ frame !! "success" = Some (VBool false)
    ∧ frame !! "error" = Some (VStr "No adapter configured")
    ∧ frame !! "data" = None.
Proof.
  eexists. split; [reflexivity|]. split; [reflexivity|].
  repeat split; reflexivity.
Qed.

(* --------------------------------------------------------------------- *)
(* Persistent server client: connect                                     *)
(* --------------------------------------------------------------------- *)

Section Connect.

Import BaseServerClient.

Implicit Types (c : BaseServerClient.t) (ev : connect_event).

Lemma is_connected_set_state_DISCONNECTED c :
  is_connected (set_state DISCONNECTED c) = false.
Proof. reflexivity. Qed.

Lemma connect_failure c ev :
  is_connected c = false → connect_fails ev = true →
  ∃ c', connect true ev c = (c', Returns false)
        ∧ _state c' = DISCONNECTED
        ∧ _reconnect_attempts c' = _reconnect_attempts c
        ∧ _running c' = _running c
        ∧ config c' = config c.
Proof.
  intros Hc Hev. unfold connect. rewrite Hc. simpl.
  destruct ev; simpl in Hev; try done; try rewrite Hev; by eexists.
Qed.

(** The counter goes back to zero on a completed attempt and on no
    other path through [connect]. *)
Lemma connect_resets_counter_only_on_success c ev c' res :
  connect true ev c = (c', res) →
  _reconnect_attempts c' = _reconnect_attempts c
  ∨ (res = Returns true ∧ _state c' = CONNECTED ∧ _reconnect_attempts c' = 0%Z).
Proof.
  unfold connect. simpl. destruct (is_connected c).
  - intros [= <- <-]. by left.
  - destruct ev as [| | |e|h e]; try destruct (exc_is_Exception e);
      intros [= <- <-]; simpl; auto.
Qed.

(** An exception that the clause does not catch leaves [connect] where
    the [try] block was entered. *)
Lemma connect_interruption c ev (e : py_exception) :
  is_connected c = false → connect_interrupted ev = Some e →
  ∃ c', connect true ev c = (c', Raises e)
        ∧ _state c' = CONNECTING
        ∧ exc_is_Exception e = false.
Proof.
  intros Hc Hev. unfold connect. rewrite Hc. simpl.
  destruct ev as [| | |e0|h e0]; simpl in Hev; try done;
    destruct (exc_is_Exception e0) eqn:He0; try done;
    injection Hev as <-; by eexists.
Qed.

Lemma connect_raises c ev c' (e : py_exception) :
  connect true ev c = (c', Raises e) → exc_is_Exception e = false.
Proof.
  unfold connect. simpl. destruct (is_connected c); [done|].
  destruct ev as [| | |e0|h e0]; try done;
    destruct (exc_is_Exception e0) eqn:He0; try done; by intros [= <- <-].
Qed.

End Connect.

(** C7, as amended: with the websockets package importable, connect on a
    connected client returns success and leaves the client as it was; on a
    client that is not connected, an attempt that fails with an exception
    of the Exception hierarchy while opening the connection or while
    registering leaves the state Disconnected and returns False to the
    caller instead of raising; an exception outside that hierarchy raised
    there leaves connect, with the state still Connecting; and no
    exception of the Exception hierarchy ever leaves connect. *)
Theorem connect_noop_or_reports_failure
    (c : BaseServerClient.t) (ev : BaseServerClient.connect_event) :
  (BaseServerClient.is_connected c = true →
     BaseServerClient.connect true ev c = (c, Returns true))
  ∧ (BaseServerClient.is_connected c = false →
     BaseServerClient.connect_fails ev = true →
     ∃ c', BaseServerClient.connect true ev c = (c', Returns false)
           ∧ BaseServerClient.state c' = BaseServerClient.DISCONNECTED)
  ∧ (BaseServerClient.is_connected c = false →
     ∀ e, BaseServerClient.connect_interrupted ev = Some e →
     ∃ c', BaseServerClient.connect true ev c = (c', Raises e)
           ∧ BaseServerClient.state c' = BaseServerClient.CONNECTING
           ∧ exc_is_Exception e = false)
  ∧ (∀ c' e, BaseServerClient.connect true ev c = (c', Raises e) →
             exc_is_Exception e = false).
Proof.
  split; [|split; [|split]].
  - intros Hc. unfold BaseServerClient.connect. by rewrite Hc.
  - intros Hc Hev. destruct (connect_failure c ev Hc Hev) as (c' & Heq & Hst & _).
    by exists c'.
  - intros Hc e Hev. by apply connect_interruption.
  - intros c' e. apply connect_raises.
Qed.

Lemma connect_noop_or_reports_failure_witness :
  BaseServerClient.connect true BaseServerClient.OpenFails connected_client
    = (connected_client, Returns true)
  ∧ (∃ c', BaseServerClient.connect true (BaseServerClient.RegisterFails 3%nat)
             (BaseServerClient.init default_config None) = (c', Returns false)
           ∧ BaseServerClient.state c' = BaseServerClient.DISCONNECTED)
  ∧ (∃ c', BaseServerClient.connect true
             (BaseServerClient.RegisterRaises 3%nat (PyExc true "Not connected"))
             (BaseServerClient.init default_config None) = (c', Returns false)
           ∧ BaseServerClient.state c' = BaseServerClient.DISCONNECTED).
Proof.
  split; [|split].
  - apply (connect_noop_or_reports_failure connected_client BaseServerClient.OpenFails).
    reflexivity.
  - apply (connect_noop_or_reports_failure
             (BaseServerClient.init default_config None) (BaseServerClient.RegisterFails 3%nat));
      reflexivity.
  - apply (connect_noop_or_reports_failure
             (BaseServerClient.init default_config None)
             (BaseServerClient.RegisterRaises 3%nat (PyExc true "Not connected")));
      reflexivity.
Defined.

(** C7, as stated, fails: on a new client, a connection attempt whose
    awaited websockets.connect is cancelled (CancelledError is outside the
    Exception hierarchy) is a failure during the sequence, yet connect does
    not return False: the exception reaches the caller, and the state is
    left at Connecting, not Disconnected.  The same happens when the
    adapter raises KeyboardInterrupt while the registration is built, the
    connection object being already assigned. *)
Lemma connect_lets_BaseException_escape :
  BaseServerClient.is_connected (BaseServerClient.init default_config None) = false
  ∧ BaseServerClient.connect true (BaseServerClient.OpenRaises CancelledError)
      (BaseServerClient.init default_config None)
    = (BaseServerClient.set_state BaseServerClient.CONNECTING
         (BaseServerClient.init default_config None), Raises CancelledError)
  ∧ BaseServerClient.state
      (BaseServerClient.connect true (BaseServerClient.OpenRaises CancelledError)
         (BaseServerClient.init default_config None)).1
    = BaseServerClient.CONNECTING
  ∧ (¬ ∃ c', BaseServerClient.connect true (BaseServerClient.OpenRaises CancelledError)
               (BaseServerClient.init default_config None) = (c', Returns false))
  ∧ BaseServerClient.connect true
      (BaseServerClient.RegisterRaises 3%nat KeyboardInterrupt)
      (BaseServerClient.init default_config (Some bare_adapter))
    = (BaseServerClient.set_ws (Some 3%nat)
         (BaseServerClient.set_state BaseServerClient.CONNECTING
            (BaseServerClient.init default_config (Some bare_adapter))),
       Raises KeyboardInterrupt)
  ∧ BaseServerClient.state
      (BaseServerClient.connect true
         (BaseServerClient.RegisterRaises 3%nat KeyboardInterrupt)
         (BaseServerClient.init default_config (Some bare_adapter))).1
    ≠ BaseServerClient.DISCONNECTED.
Proof.
  split; [reflexivity|]. split; [reflexivity|]. split; [reflexivity|].
  split; [|split; [reflexivity | discriminate]].
  intros [c' Hc']. vm_compute in Hc'. discriminate Hc'.
Qed.

(* --------------------------------------------------------------------- *)
(* Persistent server client: the run loop                                *)
(* --------------------------------------------------------------------- *)

Section RunLoop.

Import BaseServerClient.

Implicit Types (c : BaseServerClient.t) (msgs : list inbound).

(** Handling messages never touches the counter or the configuration. *)
Lemma handle_message_keeps_counter c (m : inbound) :
  _reconnect_attempts (_handle_message c m).1 = _reconnect_attempts c
  ∧ config (_handle_message c m).1 = config c.
Proof.
  destruct m as [|v]; [done|].
  destruct v as [| | | | |message|]; try done.
  unfold _handle_message.
  destruct (lookup_handler (dict_get message "type")) as [[| |]|]; try done.
  - destruct (_handle_execute_command c message) as [[]|e]; try done.
    by destruct (exc_is_Exception e).
  - destruct (_handle_health_check c message) as [frame|e]; try done.
    by destruct (exc_is_Exception e).
  - unfold disconnect. simpl. by destruct (bool_decide (_ws c ≠ None)).
Qed.

Lemma handle_all_keeps_counter msgs : ∀ c,
  _reconnect_attempts (handle_all c msgs).1 = _reconnect_attempts c
  ∧ config (handle_all c msgs).1 = config c.
Proof.
  induction msgs as [|m msgs IH]; intros c; [done|].
  simpl. pose proof (handle_message_keeps_counter c m) as [Hn Hcfg].
  destruct (_handle_message c m) as [c' [u|e]]; simpl in *.
  - destruct (IH c') as [-> ->]. done.
  - done.
Qed.

(** The ConnectionClosed clause: Reconnecting, handle dropped, counter
    as it was. *)
Lemma message_loop_connection_closed c msgs c' :
  message_loop c msgs ConnectionClosed = (c', Returns tt) →
  _state c' = RECONNECTING ∧ _ws c' = None
  ∧ _reconnect_attempts c' = _reconnect_attempts c.
Proof.
  unfold message_loop.
  pose proof (handle_all_keeps_counter msgs c) as [Hn _].
  destruct (handle_all c msgs) as [c1 [u|e]]; [|done].
  intros [= <-]. simpl in *. done.
Qed.

(** The general clause: Reconnecting, counter as it was, and the handle
    the message loop left behind. *)
Lemma message_loop_other_error c msgs c' :
  message_loop c msgs OtherError = (c', Returns tt) →
  _state c' = RECONNECTING ∧ _ws c' = _ws (handle_all c msgs).1
  ∧ _reconnect_attempts c' = _reconnect_attempts c.
Proof.
  unfold message_loop.
  pose proof (handle_all_keeps_counter msgs c) as [Hn _].
  destruct (handle_all c msgs) as [c1 [u|e]]; [|done].
  intros [= <-]. simpl in *. done.
Qed.

(** The loop on a client that is not connected, fed failing attempts:
    it stops as soon as the counter has passed the maximum. *)
Lemma run_loop_failing_attempts (outcomes : list connect_event) : ∀ c,
  _running c = true →
  is_connected c = false →
  Forall (λ o, connect_fails o = true) outcomes →
  (Z.to_nat (max_reconnect_attempts (config c) - _reconnect_attempts c)
     < length outcomes)%nat →
  ∃ c', run_loop (EvConnect <$> outcomes) c = RunReturns c'
        ∧ _state c' = DISCONNECTED
        ∧ _reconnect_attempts c'
          = Z.max (_reconnect_attempts c + 1) (max_reconnect_attempts (config c) + 1)
        ∧ config c' = config c.
Proof.
  induction outcomes as [|o outcomes IH]; intros c Hrun Hconn Hall Hlen.
  - simpl in Hlen. lia.
  - apply Forall_cons in Hall as [Ho Hall].
    destruct (connect_failure c o Hconn Ho) as (c1 & Hconnect & Hst & Hn & Hr & Hcfg).
    simpl. rewrite Hrun, Hconn. simpl. rewrite Hconnect.
    simpl. rewrite Hcfg, Hn.
    destruct (_reconnect_attempts c + 1 >? max_reconnect_attempts (config c))%Z eqn:Hgt.
    + eexists. split; [reflexivity|]. simpl. repeat split; [done|lia|done].
    + destruct (IH (set_reconnect_attempts (_reconnect_attempts c + 1) c1))
        as (c' & Hloop & Hst' & Hn' & Hcfg').
      * simpl. congruence.
      * unfold is_connected. simpl. by rewrite Hst.
      * done.
      * simpl in *. rewrite Hcfg. lia.
      * exists c'. simpl in *. rewrite Hcfg in *. repeat split; [done|done|lia|done].
Qed.

(** With fewer failed attempts than that, the loop is still going. *)
Lemma run_loop_keeps_trying (outcomes : list connect_event) : ∀ c,
  _running c = true →
  is_connected c = false →
  Forall (λ o, connect_fails o = true) outcomes →
  (Z.of_nat (length outcomes)
     ≤ max_reconnect_attempts (config c) - _reconnect_attempts c)%Z →
  ∃ c', run_loop (EvConnect <$> outcomes) c = RunWaiting c'
        ∧ _reconnect_attempts c'
          = (_reconnect_attempts c + Z.of_nat (length outcomes))%Z.
Proof.
  induction outcomes as [|o outcomes IH]; intros c Hrun Hconn Hall Hlen.
  - exists c. simpl. rewrite Hrun, Hconn. simpl. split; [done|lia].
  - apply Forall_cons in Hall as [Ho Hall].
    destruct (connect_failure c o Hconn Ho) as (c1 & Hconnect & Hst & Hn & Hr & Hcfg).
    simpl. rewrite Hrun, Hconn. simpl. rewrite Hconnect.
    simpl. rewrite Hcfg, Hn. simpl in Hlen.
    destruct (_reconnect_attempts c + 1 >? max_reconnect_attempts (config c))%Z eqn:Hgt;
      [lia|].
    destruct (IH (set_reconnect_attempts (_reconnect_attempts c + 1) c1))
      as (c' & Hloop & Hn').
    + simpl. congruence.
    + unfold is_connected. simpl. by rewrite Hst.
    + done.
    + simpl. rewrite Hcfg. lia.
    + exists c'. split; [done|]. simpl in Hn'. lia.
Qed.

End RunLoop.

(** C2 fails on the code in the general error clause of run: after a
    completed connect over connection 7, an error that is not
    ConnectionClosed moves the state to Reconnecting and leaves the counter
    alone, but the client still holds connection 7, also after the next
    failed connect; the ConnectionClosed clause beside it drops the handle.
    (An iteration that merely runs out of messages changes nothing.) *)
Theorem run_error_clause_keeps_the_handle :
  ∃ c_err c_retry c_closed c_end,
    BaseServerClient.run true
      [BaseServerClient.EvConnect (BaseServerClient.Registered 7%nat);
       BaseServerClient.EvSession [] BaseServerClient.OtherError]
      (BaseServerClient.init default_config None) = BaseServerClient.RunWaiting c_err
    ∧ BaseServerClient.state c_err = BaseServerClient.RECONNECTING
    ∧ BaseServerClient._reconnect_attempts c_err = 0%Z
    ∧ BaseServerClient._ws c_err = Some 7%nat
    ∧ BaseServerClient.run true
        [BaseServerClient.EvConnect (BaseServerClient.Registered 7%nat);
         BaseServerClient.EvSession [] BaseServerClient.OtherError;
         BaseServerClient.EvConnect BaseServerClient.OpenFails]
        (BaseServerClient.init default_config None) = BaseServerClient.RunWaiting c_retry
    ∧ BaseServerClient.state c_retry = BaseServerClient.DISCONNECTED
    ∧ BaseServerClient._reconnect_attempts c_retry = 1%Z
    ∧ BaseServerClient._ws c_retry = Some 7%nat
    ∧ BaseServerClient.run true
        [BaseServerClient.EvConnect (BaseServerClient.Registered 7%nat);
         BaseServerClient.EvSession [] BaseServerClient.ConnectionClosed]
        (BaseServerClient.init default_config None) = BaseServerClient.RunWaiting c_closed
    ∧ BaseServerClient.state c_closed = BaseServerClient.RECONNECTING
    ∧ BaseServerClient._reconnect_attempts c_closed = 0%Z
    ∧ BaseServerClient._ws c_closed = None
    ∧ BaseServerClient.run true
        [BaseServerClient.EvConnect (BaseServerClient.Registered 7%nat);
         BaseServerClient.EvSession [] BaseServerClient.Exhausted]
        (BaseServerClient.init default_config None) = BaseServerClient.RunWaiting c_end
    ∧ BaseServerClient.state c_end = BaseServerClient.CONNECTED
    ∧ BaseServerClient._ws c_end = Some 7%nat.
Proof.
  do 4 eexists.
  split; [reflexivity|]. do 3 (split; [reflexivity|]).
  split; [reflexivity|]. do 3 (split; [reflexivity|]).
  split; [reflexivity|]. do 3 (split; [reflexivity|]).
  split; [reflexivity|]. split; reflexivity.
Qed.

(** C3: on a client that is not connected, if every connect attempt fails,
    then as soon as the failed attempts have taken the counter past
    max_reconnect_attempts, run ends its loop and returns without raising,
    and the state reads Disconnected, which is not Connected. *)
Theorem run_stops_after_max_failed_attempts
    (c : BaseServerClient.t) (outcomes : list BaseServerClient.connect_event) :
  BaseServerClient.is_connected c = false →
  Forall (λ o, BaseServerClient.connect_fails o = true) outcomes →
  (Z.to_nat (BaseServerClient.max_reconnect_attempts (BaseServerClient.config c)
             - BaseServerClient._reconnect_attempts c) < length outcomes)%nat →
  ∃ c', BaseServerClient.run true (BaseServerClient.EvConnect <$> outcomes) c
        = BaseServerClient.RunReturns c'
        ∧ BaseServerClient.state c' = BaseServerClient.DISCONNECTED
        ∧ BaseServerClient.state c' ≠ BaseServerClient.CONNECTED
        ∧ BaseServerClient.is_connected c' = false
        ∧ (BaseServerClient._reconnect_attempts c'
           > BaseServerClient.max_reconnect_attempts (BaseServerClient.config c))%Z.
Proof.
  intros Hconn Hall Hlen. unfold BaseServerClient.run. simpl.
  destruct (run_loop_failing_attempts outcomes (BaseServerClient.set_running true c))
    as (c' & Hloop & Hst & Hn & Hcfg); try done.
  exists c'. unfold BaseServerClient.state, BaseServerClient.is_connected.
  rewrite Hst. simpl in *. repeat split; [done|done|lia].
Qed.

Lemma run_stops_after_max_failed_attempts_witness :
  ∃ c', BaseServerClient.run true
          (BaseServerClient.EvConnect <$>
             [BaseServerClient.OpenFails; BaseServerClient.RegisterFails 1%nat;
              BaseServerClient.OpenFails; BaseServerClient.OpenFails])
          (BaseServerClient.init
             {| BaseServerClient.server_url := "wss://conjure.lautrek.com/api/v1/adapter/ws";
                BaseServerClient.api_key := None;
                BaseServerClient.adapter_id := None;
                BaseServerClient.adapter_type := "generic";
                BaseServerClient.max_reconnect_attempts := 3 |} None)
        = BaseServerClient.RunReturns c'
        ∧ BaseServerClient.state c' = BaseServerClient.DISCONNECTED
        ∧ BaseServerClient.state c' ≠ BaseServerClient.CONNECTED
        ∧ BaseServerClient.is_connected c' = false
        ∧ (BaseServerClient._reconnect_attempts c' > 3)%Z.
Proof.
  apply (run_stops_after_max_failed_attempts
           (BaseServerClient.init
              {| BaseServerClient.server_url := "wss://conjure.lautrek.com/api/v1/adapter/ws";
                 BaseServerClient.api_key := None;
                 BaseServerClient.adapter_id := None;
                 BaseServerClient.adapter_type := "generic";
                 BaseServerClient.max_reconnect_attempts := 3 |} None)
           [BaseServerClient.OpenFails; BaseServerClient.RegisterFails 1%nat;
            BaseServerClient.OpenFails; BaseServerClient.OpenFails]).
  - reflexivity.
  - repeat constructor.
  - simpl. lia.
Defined.

(* --------------------------------------------------------------------- *)
(* Threaded socket server: timeout and late completion                   *)
(* --------------------------------------------------------------------- *)

Section LateCompletion.

Import SocketServerMixin.

Implicit Types (s : SocketServerMixin.t) (op : operation) (exec : executor).

(** The timeout path of [_server_queue_and_wait]: the caller gets the
    timeout error, its registration is gone, nothing else moves. *)
Lemma queue_and_wait_timeout s (request_id : string) (event : event_ref) :
  is_set s event = false →
  ∃ s', _server_queue_and_wait_end s request_id event
        = (s', Returns (error_response "Operation timed out"))
        ∧ _result_events s' !! request_id = None
        ∧ _result_map s' = _result_map s
        ∧ event_sets s' = event_sets s
        ∧ _operation_queue s' = _operation_queue s.
Proof.
  intros Hset. unfold _server_queue_and_wait_end. rewrite Hset.
  eexists. split; [reflexivity|]. simpl.
  by rewrite lookup_delete_eq.
Qed.

(** Completing an operation whose waiter has gone: no exception for an
    executor that returns or raises an Exception, no event is set, the
    event map is as before, and the result is written into the result
    map under the request id. *)
Lemma process_one_without_waiter exec s op (rest : list operation) :
  _result_events s !! op_request_id op = None →
  (∀ e, exec (op_type op) (op_params op) = Raises e → exc_is_Exception e = true) →
  ∃ s' result,
    process_one exec s op rest = (s', Returns tt)
    ∧ event_sets s' = event_sets s
    ∧ _result_events s' = _result_events s
    ∧ _result_map s' = <[op_request_id op := result]> (_result_map s).
Proof.
  intros Hgone Hexc. unfold process_one. rewrite Hgone.
  destruct (exec (op_type op) (op_params op)) as [result|e] eqn:Hexec.
  - by do 2 eexists.
  - rewrite (Hexc e eq_refl). by do 2 eexists.
Qed.

End LateCompletion.

(** C4 fails on the code in its last part.  A command is queued on a running
    server and nothing drains the queue while its caller waits: the caller
    gets the timeout error and its event registration is removed.  The
    execution thread then completes the operation: server_process_queue
    returns True without raising and sets no event, the event map stays
    without an entry for the request, but the result is written into the
    result map under the request id and stays there.  (When the queue is
    drained during the wait, the caller gets the result and both maps end
    without an entry.) *)
Theorem late_completion_leaves_result_entry :
  ∃ s_queued s_timed_out s_done s_served request_id event,
    SocketServerMixin._server_queue_and_wait_begin
      (SocketServerMixin.server_start SocketServerMixin.server_init)
      (SocketServerMixin.Object create_box_command) "4f6c"
    = (s_queued, Returns (SocketServerMixin.Waiting request_id event))
    ∧ SocketServerMixin._server_queue_and_wait
        (SocketServerMixin.server_start SocketServerMixin.server_init)
        (SocketServerMixin.Object create_box_command) "4f6c" id
      = (s_timed_out,
         Returns (SocketServerMixin.error_response "Operation timed out"))
    ∧ SocketServerMixin._result_events s_timed_out !! request_id = None
    ∧ SocketServerMixin._result_map s_timed_out !! request_id = None
    ∧ SocketServerMixin.server_process_queue box_executor 10 s_timed_out
      = (s_done, Returns true)
    ∧ SocketServerMixin._operation_queue s_done = []
    ∧ SocketServerMixin.event_sets s_done = SocketServerMixin.event_sets s_timed_out
    ∧ SocketServerMixin.is_set s_done event = false
    ∧ SocketServerMixin._result_events s_done !! request_id = None
    ∧ SocketServerMixin._result_map s_done !! request_id = Some box_result
    ∧ SocketServerMixin.server_process_queue box_executor 10 s_done
      = (s_done, Returns true)
    ∧ SocketServerMixin._server_queue_and_wait
        (SocketServerMixin.server_start SocketServerMixin.server_init)
        (SocketServerMixin.Object create_box_command) "4f6c"
        (λ s, (SocketServerMixin.server_process_queue box_executor 10 s).1)
      = (s_served, Returns box_result)
    ∧ SocketServerMixin._result_events s_served !! request_id = None
    ∧ SocketServerMixin._result_map s_served !! request_id = None.
Proof.
  do 6 eexists.
  split; [reflexivity|].
  repeat (split; [reflexivity|]).
  reflexivity.
Qed.

(* ===================================================================== *)
(* Further properties                                                    *)
(* ===================================================================== *)

(* --------------------------------------------------------------------- *)
(* The command registry                                                  *)
(* --------------------------------------------------------------------- *)

Section Registry.

Import BaseAdapter.

Implicit Types (a : BaseAdapter.t) (h : handler) (members : list (string * member)).

Lemma startswith_app (prefix rest : string) :
  PyStr.startswith (prefix +:+ rest) prefix = true.
Proof.
  induction prefix as [|p prefix IH]; [done|].
  change (String p prefix +:+ rest) with (String p (prefix +:+ rest)).
  simpl. by rewrite Ascii.eqb_refl.
Qed.

Lemma slice_from_app (prefix rest : string) :
  PyStr.slice_from (String.length prefix) (prefix +:+ rest) = rest.
Proof.
  induction prefix as [|p prefix IH]; [reflexivity|].
  change (String p prefix +:+ rest) with (String p (prefix +:+ rest)). exact IH.
Qed.

Lemma startswith_split (name prefix : string) :
  PyStr.startswith name prefix = true →
  name = prefix +:+ PyStr.slice_from (String.length prefix) name.
Proof.
  revert name. induction prefix as [|p prefix IH]; intros name H.
  - by destruct name.
  - destruct name as [|c name]; [done|]. simpl in H.
    destruct (Ascii.eqb c p) eqn:Hc; [|done].
    apply Ascii.eqb_eq in Hc as ->.
    change (String p prefix +:+ ?s) with (String p (prefix +:+ s)).
    simpl. f_equal. by apply IH.
Qed.

Lemma register_member_health prefix a named :
  health_check (register_member prefix a named) = health_check a
  ∧ capabilities (register_member prefix a named) = capabilities a.
Proof.
  unfold register_member.
  destruct (PyStr.startswith named.1 prefix); [|done]. by destruct named.2.
Qed.

(** A member changes the entry of one command type only: the rest of its
    name, when it starts with the prefix and is callable. *)
Lemma register_member_lookup prefix a named (command_type : string) :
  _handlers (register_member prefix a named) !! command_type
  = match named.2 with
    | Callable h =>
        if bool_decide (named.1 = prefix +:+ command_type)
        then Some h else _handlers a !! command_type
    | NotCallable => _handlers a !! command_type
    end.
Proof.
  unfold register_member. destruct named as [name m]. simpl.
  destruct m as [h|]; [|by destruct (PyStr.startswith name prefix)].
  destruct (PyStr.startswith name prefix) eqn:Hstart; simpl.
  - rewrite lookup_insert. case_decide as Hct; case_bool_decide as Hname; try done.
    + destruct Hname. rewrite <- Hct. by apply startswith_split.
    + destruct Hct. rewrite Hname. by rewrite slice_from_app.
  - case_bool_decide as Hname; [|done].
    rewrite Hname, startswith_app in Hstart. done.
Qed.

Lemma by_prefix_keeps_other members prefix (command_type : string) : ∀ a,
  (∀ h, (prefix +:+ command_type, Callable h) ∉ members) →
  _handlers (register_handlers_by_prefix members prefix a) !! command_type
  = _handlers a !! command_type.
Proof.
  unfold register_handlers_by_prefix.
  induction members as [|named members IH]; intros a Hnone; [done|].
  simpl. rewrite IH.
  - rewrite register_member_lookup. destruct named as [name [h|]]; simpl; [|done].
    case_bool_decide as Hname; [|done].
    destruct (Hnone h). rewrite Hname. by left.
  - intros h Hin. apply (Hnone h). by right.
Qed.

Lemma by_prefix_health members prefix : ∀ a,
  health_check (register_handlers_by_prefix members prefix a) = health_check a
  ∧ capabilities (register_handlers_by_prefix members prefix a) = capabilities a.
Proof.
  unfold register_handlers_by_prefix.
  induction members as [|named members IH]; intros a; [done|].
  simpl. destruct (IH (register_member prefix a named)) as [-> ->].
  apply register_member_health.
Qed.

(** Scanning commutes with laying a registry underneath. *)
Lemma by_prefix_union members prefix : ∀ a a' (m : gmap string handler),
  _handlers a = _handlers a' ∪ m →
  _handlers (register_handlers_by_prefix members prefix a)
  = _handlers (register_handlers_by_prefix members prefix a') ∪ m.
Proof.
  unfold register_handlers_by_prefix.
  induction members as [|named members IH]; intros a a' m Hm; [done|].
  simpl. apply IH. unfold register_member.
  destruct (PyStr.startswith named.1 prefix); [|done].
  destruct named.2 as [h|]; [|done].
  simpl. rewrite Hm. by rewrite insert_union_l.
Qed.

Lemma eq_str_false (v : value) (lit : string) : v ≠ VStr lit → eq_str v lit = false.
Proof.
  intros Hne. destruct v as [| | |s| | |]; try done. simpl.
  apply String.eqb_neq. congruence.
Qed.

End Registry.

(** X1: register_handler replaces the handler of its command type and of
    no other: after it, execute on that type runs the new handler whatever
    was registered before, and execute on every other type answers as it
    did before. *)
Theorem register_handler_overrides_one_command
    (a : BaseAdapter.t) (command_type other : string)
    (h : BaseAdapter.handler) (params : dict) :
  BaseAdapter.execute (BaseAdapter.register_handler a command_type h) command_type params
    = BaseAdapter.execute (adapter_with command_type h) command_type params
  ∧ (other ≠ command_type →
     BaseAdapter.execute (BaseAdapter.register_handler a command_type h) other params
     = BaseAdapter.execute a other params).
Proof.
  split.
  - rewrite !(execute_registered _ command_type params h); [done|..];
      simpl; apply lookup_insert_eq.
  - intros Hne. unfold BaseAdapter.execute, BaseAdapter.register_handler. simpl.
    by rewrite lookup_insert_ne.
Qed.

Lemma register_handler_overrides_one_command_witness :
  BaseAdapter.execute
    (BaseAdapter.register_handler (adapter_with "create_box" (raising false ValueError))
       "create_box" (returning true (BaseAdapter.RetValue VNone)))
    "create_box" ∅
    = BaseAdapter.execute
        (adapter_with "create_box" (returning true (BaseAdapter.RetValue VNone)))
        "create_box" ∅
  ∧ ("delete" ≠ "create_box" →
     BaseAdapter.execute
       (BaseAdapter.register_handler (adapter_with "create_box" (raising false ValueError))
          "create_box" (returning true (BaseAdapter.RetValue VNone)))
       "delete" ∅
     = BaseAdapter.execute (adapter_with "create_box" (raising false ValueError))
         "delete" ∅).
Proof.
  exact (register_handler_overrides_one_command
           (adapter_with "create_box" (raising false ValueError))
           "create_box" "delete" (returning true (BaseAdapter.RetValue VNone)) ∅).
Defined.

(** X2: register_handlers_by_prefix, over attribute names that are pairwise
    distinct (as dir lists them): a callable attribute named prefix followed
    by a command type becomes the handler of that command type, and a
    command type for which there is no such attribute keeps the handler (or
    the absence of a handler) it had. *)
Theorem by_prefix_registers_callable_members
    (members : list (string * BaseAdapter.member)) (prefix command_type : string)
    (a : BaseAdapter.t) :
  NoDup members.*1 →
  (∀ h, (prefix +:+ command_type, BaseAdapter.Callable h) ∈ members →
     BaseAdapter._handlers (BaseAdapter.register_handlers_by_prefix members prefix a)
       !! command_type = Some h)
  ∧ ((∀ h, (prefix +:+ command_type, BaseAdapter.Callable h) ∉ members) →
     BaseAdapter._handlers (BaseAdapter.register_handlers_by_prefix members prefix a)
       !! command_type = BaseAdapter._handlers a !! command_type).
Proof.
  intros Hnodup. split; [|apply by_prefix_keeps_other].
  intros h. revert a. unfold BaseAdapter.register_handlers_by_prefix.
  induction members as [|named members IH]; intros a Hin; [by apply elem_of_nil in Hin|].
  apply NoDup_cons in Hnodup as [Hfresh Hnodup].
  apply elem_of_cons in Hin as [<- | Hin].
  - simpl.
    change (foldl (BaseAdapter.register_member prefix) ?b members)
      with (BaseAdapter.register_handlers_by_prefix members prefix b).
    rewrite by_prefix_keeps_other.
    + rewrite register_member_lookup. simpl. by rewrite bool_decide_eq_true_2.
    + intros h' Hin'. apply Hfresh. simpl.
      apply list_elem_of_fmap. by exists (prefix +:+ command_type, BaseAdapter.Callable h').
  - simpl. by apply IH.
Qed.

Lemma by_prefix_registers_callable_members_witness :
  (∀ h, ("_cmd_" +:+ "create_box", BaseAdapter.Callable h) ∈ sample_members →
     BaseAdapter._handlers
       (BaseAdapter.register_handlers_by_prefix sample_members "_cmd_" bare_adapter)
       !! "create_box" = Some h)
  ∧ ((∀ h, ("_cmd_" +:+ "create_box", BaseAdapter.Callable h) ∉ sample_members) →
     BaseAdapter._handlers
       (BaseAdapter.register_handlers_by_prefix sample_members "_cmd_" bare_adapter)
       !! "create_box" = BaseAdapter._handlers bare_adapter !! "create_box").
Proof.
  apply (by_prefix_registers_callable_members sample_members "_cmd_" "create_box"
           bare_adapter).
  apply (bool_decide_unpack _). vm_compute. exact I.
Defined.

(** X3: register_handlers_by_prefix is idempotent: a second scan of the same
    attributes with the same prefix leaves the adapter exactly as the first
    scan left it. *)
Theorem by_prefix_idempotent
    (members : list (string * BaseAdapter.member)) (prefix : string) (a : BaseAdapter.t) :
  BaseAdapter.register_handlers_by_prefix members prefix
    (BaseAdapter.register_handlers_by_prefix members prefix a)
  = BaseAdapter.register_handlers_by_prefix members prefix a.
Proof.
  set (once := BaseAdapter.register_handlers_by_prefix members prefix a).
  pose proof (by_prefix_health members prefix a) as [Hh Hc].
  pose proof (by_prefix_health members prefix once) as [Hh' Hc'].
  pose proof (by_prefix_union members prefix a bare_adapter (BaseAdapter._handlers a)) as H1.
  pose proof (by_prefix_union members prefix once bare_adapter (BaseAdapter._handlers once))
    as H2.
  fold once in Hh, Hc, H1.
  assert (Hm : BaseAdapter._handlers
                 (BaseAdapter.register_handlers_by_prefix members prefix once)
               = BaseAdapter._handlers once).
  { rewrite H2 by (simpl; by rewrite (left_id_L ∅ (∪))).
    rewrite H1 by (simpl; by rewrite (left_id_L ∅ (∪))).
    by rewrite (assoc_L (∪)), (idemp_L (∪)). }
  destruct (BaseAdapter.register_handlers_by_prefix members prefix once) as [m2 h2 c2].
  destruct once as [m1 h1 c1]. simpl in *. congruence.
Qed.

(** X4: a Result that execute builds itself (the handler did not return a
    Result object of its own) is consistent: a success carries no error,
    and a failure carries no data. *)
Theorem execute_synthesised_result_consistent
    (a : BaseAdapter.t) (command_type : string) (params : dict) (r : AdapterResult.t) :
  BaseAdapter.execute a command_type params = Returns r →
  (∀ h r0, BaseAdapter._handlers a !! command_type = Some h →
           BaseAdapter.body h params ≠ Returns (BaseAdapter.RetResult r0)) →
  (AdapterResult.success r = true → AdapterResult.error r = VNone)
  ∧ (AdapterResult.success r = false → AdapterResult.data r = ∅).
Proof.
  intros Hexec Hown. unfold BaseAdapter.execute in Hexec.
  destruct (BaseAdapter._handlers a !! command_type) as [h|] eqn:Hh.
  - rewrite call_body in Hexec. specialize (Hown h).
    destruct (BaseAdapter.body h params) as [[r0|v]|e].
    + by destruct (Hown r0).
    + injection Hexec as <-. destruct v as [| | | | |d|]; try done. simpl.
      by destruct (eq_str (dict_get d "status") "error").
    + destruct (exc_is_Exception e); [|done]. by injection Hexec as <-.
  - by injection Hexec as <-.
Qed.

Lemma execute_synthesised_result_consistent_witness :
  (AdapterResult.success (AdapterResult.fail (VStr "Operation failed") ∅) = true →
     AdapterResult.error (AdapterResult.fail (VStr "Operation failed") ∅) = VNone)
  ∧ (AdapterResult.success (AdapterResult.fail (VStr "Operation failed") ∅) = false →
     AdapterResult.data (AdapterResult.fail (VStr "Operation failed") ∅) = ∅).
Proof.
  apply (execute_synthesised_result_consistent
           (adapter_with "error_dict_handler"
              (returning false (BaseAdapter.RetValue (VDict legacy_error_dict))))
           "error_dict_handler" ∅ (AdapterResult.fail (VStr "Operation failed") ∅)).
  - reflexivity.
  - intros h r0 Hh. vm_compute in Hh. injection Hh as <-. discriminate.
Defined.

(** X5: a handler that returns a mapping whose status entry is not the
    string error (no such entry, another string, a value of another type)
    gives a success Result whose data is that very mapping, status entry
    included, and whose error is None. *)
Theorem execute_wraps_mapping
    (a : BaseAdapter.t) (command_type : string) (params d : dict)
    (h : BaseAdapter.handler) :
  BaseAdapter._handlers a !! command_type = Some h →
  BaseAdapter.body h params = Returns (BaseAdapter.RetValue (VDict d)) →
  d !! "status" ≠ Some (VStr "error") →
  BaseAdapter.execute a command_type params
  = Returns {| AdapterResult.success := true;
               AdapterResult.data := d;
               AdapterResult.error := VNone |}.
Proof.
  intros Hh Hret Hstatus.
  rewrite (execute_registered _ _ _ _ Hh), Hret. simpl.
  rewrite eq_str_false; [done|].
  unfold dict_get. destruct (d !! "status") as [v|]; simpl; congruence.
Qed.

Lemma execute_wraps_mapping_witness :
  BaseAdapter.execute
    (adapter_with "status"
       (returning false (BaseAdapter.RetValue (VDict (<["status" := VStr "Error"]> ∅)))))
    "status" ∅
  = Returns {| AdapterResult.success := true;
               AdapterResult.data := <["status" := VStr "Error"]> ∅;
               AdapterResult.error := VNone |}.
Proof.
  apply (execute_wraps_mapping
           (adapter_with "status"
              (returning false (BaseAdapter.RetValue (VDict (<["status" := VStr "Error"]> ∅)))))
           "status" ∅ (<["status" := VStr "Error"]> ∅)
           (returning false (BaseAdapter.RetValue (VDict (<["status" := VStr "Error"]> ∅)))));
    [reflexivity | reflexivity | vm_compute; discriminate].
Defined.

(** X6: get_supported_commands lists every registered command type once
    and nothing else, and execute answers Unknown command exactly for the
    types that are not listed there, unless a handler builds that answer
    itself. *)
Theorem supported_commands_are_the_dispatched_ones
    (a : BaseAdapter.t) (command_type : string) (params : dict) :
  NoDup (BaseAdapter.get_supported_commands a)
  ∧ (command_type ∈ BaseAdapter.get_supported_commands a
     ↔ is_Some (BaseAdapter._handlers a !! command_type))
  ∧ (command_type ∉ BaseAdapter.get_supported_commands a →
     BaseAdapter.execute a command_type params
     = Returns (AdapterResult.fail (VStr ("Unknown command: " +:+ command_type)) ∅))
  ∧ (command_type ∈ BaseAdapter.get_supported_commands a →
     ∃ h, BaseAdapter._handlers a !! command_type = Some h
          ∧ BaseAdapter.execute a command_type params
            = BaseAdapter.execute (adapter_with command_type h) command_type params).
Proof.
  unfold BaseAdapter.get_supported_commands.
  assert (Hin : command_type ∈ (map_to_list (BaseAdapter._handlers a)).*1
                ↔ is_Some (BaseAdapter._handlers a !! command_type)).
  { rewrite list_elem_of_fmap. split.
    - intros [[k h] [-> Hkh]]. apply elem_of_map_to_list in Hkh. by exists h.
    - intros [h Hh]. exists (command_type, h). split; [done|].
      by apply elem_of_map_to_list. }
  split; [apply NoDup_fst_map_to_list|]. split; [exact Hin|]. split.
  - intros Hnot. unfold BaseAdapter.execute.
    destruct (BaseAdapter._handlers a !! command_type) as [h|] eqn:Hh; [|done].
    destruct Hnot. apply Hin. by exists h.
  - intros [h Hh]%Hin. exists h. split; [done|].
    rewrite !(execute_registered _ command_type params h); [done| |done].
    simpl. apply lookup_insert_eq.
Qed.

(* --------------------------------------------------------------------- *)
(* Wire forms of the protocol package                                    *)
(* --------------------------------------------------------------------- *)

Section ProtocolWire.

Implicit Types (r : CommandResponse.t).

Lemma response_wire_success r :
  CommandResponse.to_wire r !! "success" = Some (VBool (CommandResponse.success r)).
Proof.
  unfold CommandResponse.to_wire.
  destruct (truthy (CommandResponse.error r)), (truthy (CommandResponse.request_id r));
    by simplify_map_eq.
Qed.

Lemma response_wire_data r :
  CommandResponse.to_wire r !! "data" = Some (VDict (CommandResponse.data r)).
Proof.
  unfold CommandResponse.to_wire.
  destruct (truthy (CommandResponse.error r)), (truthy (CommandResponse.request_id r));
    by simplify_map_eq.
Qed.

Lemma response_wire_error r :
  CommandResponse.to_wire r !! "error"
  = if truthy (CommandResponse.error r) then Some (CommandResponse.error r) else None.
Proof.
  unfold CommandResponse.to_wire.
  destruct (truthy (CommandResponse.error r)), (truthy (CommandResponse.request_id r));
    by simplify_map_eq.
Qed.

Lemma response_wire_request_id r :
  CommandResponse.to_wire r !! "request_id"
  = if truthy (CommandResponse.request_id r)
    then Some (CommandResponse.request_id r) else None.
Proof.
  unfold CommandResponse.to_wire.
  destruct (truthy (CommandResponse.error r)), (truthy (CommandResponse.request_id r));
    by simplify_map_eq.
Qed.

(** A value read back from an optional key. *)
Lemma optional_key_inj (v1 v2 : value) :
  (v1 = VNone ∨ truthy v1 = true) → (v2 = VNone ∨ truthy v2 = true) →
  (if truthy v1 then Some v1 else None) = (if truthy v2 then Some v2 else None) →
  v1 = v2.
Proof.
  intros [-> | H1] [-> | H2]; simpl; try rewrite H1; try rewrite H2; simpl;
    try done; try congruence.
Qed.

End ProtocolWire.

(** X7: in the wire form of a CommandResponse the error and request_id
    keys are written exactly when the field is truthy, and then with the
    value of the field: an empty-string error or request id is dropped like
    None.  On responses whose error and request id are each None or truthy
    the wire form loses nothing: two such responses with the same wire form
    are the same response. *)
Theorem command_response_wire_injective (r1 r2 : CommandResponse.t) :
  (is_Some (CommandResponse.to_wire r1 !! "error")
   ↔ truthy (CommandResponse.error r1) = true)
  ∧ (is_Some (CommandResponse.to_wire r1 !! "request_id")
     ↔ truthy (CommandResponse.request_id r1) = true)
  ∧ (∀ v, CommandResponse.to_wire r1 !! "error" = Some v → v = CommandResponse.error r1)
  ∧ (∀ v, CommandResponse.to_wire r1 !! "request_id" = Some v
          → v = CommandResponse.request_id r1)
  ∧ (CommandResponse.error r1 = VStr "" → CommandResponse.to_wire r1 !! "error" = None)
  ∧ (CommandResponse.request_id r1 = VStr ""
     → CommandResponse.to_wire r1 !! "request_id" = None)
  ∧ ((CommandResponse.error r1 = VNone ∨ truthy (CommandResponse.error r1) = true) →
     (CommandResponse.request_id r1 = VNone
      ∨ truthy (CommandResponse.request_id r1) = true) →
     (CommandResponse.error r2 = VNone ∨ truthy (CommandResponse.error r2) = true) →
     (CommandResponse.request_id r2 = VNone
      ∨ truthy (CommandResponse.request_id r2) = true) →
     CommandResponse.to_wire r1 = CommandResponse.to_wire r2 →
     r1 = r2).
Proof.
  rewrite response_wire_error, response_wire_request_id.
  split; [|split; [|split; [|split; [|split; [|split]]]]].
  - destruct (truthy (CommandResponse.error r1)); split; intros H;
      first [done | by eexists | by destruct H].
  - destruct (truthy (CommandResponse.request_id r1)); split; intros H;
      first [done | by eexists | by destruct H].
  - intros v. destruct (truthy (CommandResponse.error r1)); [|done]. by intros [= <-].
  - intros v. destruct (truthy (CommandResponse.request_id r1)); [|done].
    by intros [= <-].
  - by intros ->.
  - by intros ->.
  - intros He1 Hr1 He2 Hr2 Hwire.
    pose proof (response_wire_success r1) as Hs. rewrite Hwire, response_wire_success in Hs.
    pose proof (response_wire_data r1) as Hd. rewrite Hwire, response_wire_data in Hd.
    pose proof (response_wire_error r1) as He. rewrite Hwire, response_wire_error in He.
    pose proof (response_wire_request_id r1) as Hr.
    rewrite Hwire, response_wire_request_id in Hr.
    symmetry in He, Hr.
    apply optional_key_inj in He; [|done..]. apply optional_key_inj in Hr; [|done..].
    destruct r1, r2; simpl in *. congruence.
Qed.

Lemma command_response_wire_injective_witness :
  CommandResponse.to_wire
    {| CommandResponse.success := true;
       CommandResponse.data := <["object_id" := VStr "Box001"]> ∅;
       CommandResponse.error := VNone;
       CommandResponse.request_id := VStr "" |} !! "request_id" = None
  ∧ is_Some (CommandResponse.to_wire
               {| CommandResponse.success := true;
                  CommandResponse.data := <["object_id" := VStr "Box001"]> ∅;
                  CommandResponse.error := VNone;
                  CommandResponse.request_id := VStr "req_123" |} !! "request_id").
Proof.
  split.
  - apply (command_response_wire_injective
             {| CommandResponse.success := true;
                CommandResponse.data := <["object_id" := VStr "Box001"]> ∅;
                CommandResponse.error := VNone;
                CommandResponse.request_id := VStr "" |}
             {| CommandResponse.success := true;
                CommandResponse.data := <["object_id" := VStr "Box001"]> ∅;
                CommandResponse.error := VNone;
                CommandResponse.request_id := VStr "" |}).
    reflexivity.
  - apply (command_response_wire_injective
             {| CommandResponse.success := true;
                CommandResponse.data := <["object_id" := VStr "Box001"]> ∅;
                CommandResponse.error := VNone;
                CommandResponse.request_id := VStr "req_123" |}
             {| CommandResponse.success := true;
                CommandResponse.data := <["object_id" := VStr "Box001"]> ∅;
                CommandResponse.error := VNone;
                CommandResponse.request_id := VStr "req_123" |}).
    reflexivity.
Defined.

(** X8: in the wire form of a registration and of a heartbeat the metadata
    entries win: every metadata entry appears unchanged, also under one of
    the fixed keys such as type; a fixed key that the metadata does not use
    carries the value of its field. *)
Theorem payload_wire_metadata_takes_precedence
    (p : RegistrationPayload.t) (hb : HeartbeatPayload.t) (k : string) (v : value) :
  (RegistrationPayload.metadata p !! k = Some v →
     RegistrationPayload.to_wire p !! k = Some v)
  ∧ (RegistrationPayload.metadata p !! "type" = None →
     RegistrationPayload.to_wire p !! "type" = Some (VStr "adapter_registration"))
  ∧ (RegistrationPayload.metadata p !! "capabilities" = None →
     RegistrationPayload.to_wire p !! "capabilities"
     = Some (str_list_value (RegistrationPayload.capabilities p)))
  ∧ (RegistrationPayload.metadata p !! "commands" = None →
     RegistrationPayload.to_wire p !! "commands"
     = Some (str_list_value (RegistrationPayload.commands p)))
  ∧ (RegistrationPayload.metadata p !! "adapter_id" = None →
     RegistrationPayload.to_wire p !! "adapter_id"
     = Some (optional_str_value (RegistrationPayload.adapter_id p)))
  ∧ (HeartbeatPayload.metadata hb !! k = Some v →
     HeartbeatPayload.to_wire hb !! k = Some v)
  ∧ (HeartbeatPayload.metadata hb !! "type" = None →
     HeartbeatPayload.to_wire hb !! "type" = Some (VStr "heartbeat"))
  ∧ (HeartbeatPayload.metadata hb !! "active_jobs" = None →
     HeartbeatPayload.to_wire hb !! "active_jobs"
     = Some (VInt (HeartbeatPayload.active_jobs hb))).
Proof.
  unfold RegistrationPayload.to_wire, HeartbeatPayload.to_wire.
  repeat split; intros H;
    first [ by apply lookup_union_Some_l
          | rewrite lookup_union_r by done; by simplify_map_eq ].
Qed.

Lemma payload_wire_metadata_takes_precedence_witness :
  RegistrationPayload.to_wire
    {| RegistrationPayload.adapter_type := "freecad";
       RegistrationPayload.adapter_id := None;
       RegistrationPayload.version := "1.0.0";
       RegistrationPayload.capabilities := ["primitives"];
       RegistrationPayload.commands := ["create_box"];
       RegistrationPayload.metadata := <["type" := VStr "custom"]> ∅ |} !! "type"
  = Some (VStr "custom")
  ∧ RegistrationPayload.to_wire
      {| RegistrationPayload.adapter_type := "freecad";
         RegistrationPayload.adapter_id := None;
         RegistrationPayload.version := "1.0.0";
         RegistrationPayload.capabilities := ["primitives"];
         RegistrationPayload.commands := ["create_box"];
         RegistrationPayload.metadata := <["type" := VStr "custom"]> ∅ |} !! "commands"
    = Some (VList [VStr "create_box"])
  ∧ HeartbeatPayload.to_wire
      {| HeartbeatPayload.adapter_id := "adapter_001";
         HeartbeatPayload.status := "available";
         HeartbeatPayload.active_jobs := 0;
         HeartbeatPayload.metadata := ∅ |} !! "type"
    = Some (VStr "heartbeat").
Proof.
  pose proof (payload_wire_metadata_takes_precedence
    {| RegistrationPayload.adapter_type := "freecad";
       RegistrationPayload.adapter_id := None;
       RegistrationPayload.version := "1.0.0";
       RegistrationPayload.capabilities := ["primitives"];
       RegistrationPayload.commands := ["create_box"];
       RegistrationPayload.metadata := <["type" := VStr "custom"]> ∅ |}
    {| HeartbeatPayload.adapter_id := "adapter_001";
       HeartbeatPayload.status := "available";
       HeartbeatPayload.active_jobs := 0;
       HeartbeatPayload.metadata := ∅ |}
    "type" (VStr "custom")) as (Hmeta & _ & _ & Hcommands & _ & _ & Htype & _).
  split; [apply Hmeta; reflexivity|].
  split; [apply Hcommands; reflexivity | apply Htype; reflexivity].
Defined.

(* --------------------------------------------------------------------- *)
(* Persistent server client: message handling and disconnect             *)
(* --------------------------------------------------------------------- *)

Section Messages.

Import BaseServerClient.

Implicit Types (c : BaseServerClient.t) (raw : inbound).

Lemma handle_message_client c raw :
  (_handle_message c raw).1 = c
  ∨ ((_handle_message c raw).1 = disconnect c
     ∧ (_handle_message c raw).2 = Returns None).
Proof.
  destruct raw as [|v]; [by left|].
  destruct v as [| | | | |message|]; try by left.
  unfold _handle_message.
  destruct (lookup_handler (dict_get message "type")) as [[| |]|]; try by left.
  - destruct (_handle_execute_command c message) as [[]|e]; try by left.
    destruct (exc_is_Exception e); by left.
  - destruct (_handle_health_check c message) as [frame|e]; try by left.
    destruct (exc_is_Exception e); by left.
  - by right.
Qed.

Lemma handle_message_raises c raw (e : py_exception) :
  (_handle_message c raw).2 = Raises e → exc_is_Exception e = false.
Proof.
  destruct raw as [|v]; [done|].
  destruct v as [| | | | |message|]; try done.
  unfold _handle_message.
  destruct (lookup_handler (dict_get message "type")) as [[| |]|]; try done.
  - destruct (_handle_execute_command c message) as [[]|e']; try done.
    destruct (exc_is_Exception e') eqn:He'; [done|]. simpl. congruence.
  - destruct (_handle_health_check c message) as [frame|e']; try done.
    destruct (exc_is_Exception e') eqn:He'; [done|]. simpl. congruence.
Qed.

Lemma handle_message_without_connection c raw (frame : dict) :
  _ws c = None → (_handle_message c raw).2 ≠ Returns (Some frame).
Proof.
  intros Hws.
  destruct raw as [|v]; [done|].
  destruct v as [| | | | |message|]; try done.
  unfold _handle_message, _send. rewrite Hws.
  destruct (lookup_handler (dict_get message "type")) as [[| |]|]; try done.
  - destruct (_handle_execute_command c message) as [[]|e']; try done.
    by destruct (exc_is_Exception e').
  - destruct (_handle_health_check c message) as [frame'|e']; try done.
    by destruct (exc_is_Exception e').
Qed.

Lemma to_wire_dom (r : AdapterResult.t) :
  dom (AdapterResult.to_wire r) ⊆ ({["success"; "data"; "error"]} : gset string).
Proof.
  unfold AdapterResult.to_wire.
  destruct (truthy (AdapterResult.error r)); rewrite !dom_insert_L; set_solver.
Qed.

Lemma disconnect_fields c :
  _running (disconnect c) = false ∧ _ws (disconnect c) = None
  ∧ _state (disconnect c) = DISCONNECTED
  ∧ _reconnect_attempts (disconnect c) = _reconnect_attempts c
  ∧ config (disconnect c) = config c ∧ adapter (disconnect c) = adapter c.
Proof.
  unfold disconnect. simpl. case_bool_decide as Hws; simpl; [done|].
  destruct (_ws c); [by destruct Hws | done].
Qed.

End Messages.

(** X9: handling one inbound message leaves the client's own attributes
    (configuration, connection handle, state, reconnect counter, loop flag)
    as they were, unless the message is a disconnect request, in which case
    they are the ones disconnect() leaves and nothing is sent; the only
    exceptions that leave _handle_message are outside the Exception
    hierarchy; and a client without connection handle never writes a
    frame.  What a handler does to the adapter object is not modelled, so
    nothing is said about it. *)
Theorem handle_message_effects
    (c : BaseServerClient.t) (raw : BaseServerClient.inbound) :
  (own_attributes (BaseServerClient._handle_message c raw).1 = own_attributes c
   ∨ (own_attributes (BaseServerClient._handle_message c raw).1
      = own_attributes (BaseServerClient.disconnect c)
      ∧ (BaseServerClient._handle_message c raw).2 = Returns None))
  ∧ (∀ e, (BaseServerClient._handle_message c raw).2 = Raises e →
          exc_is_Exception e = false)
  ∧ (BaseServerClient._ws c = None →
     ∀ frame, (BaseServerClient._handle_message c raw).2 ≠ Returns (Some frame)).
Proof.
  split.
  { destruct (handle_message_client c raw) as [-> | [-> Hnone]]; [by left | by right]. }
  split; [apply handle_message_raises|].
  intros Hws frame. by apply handle_message_without_connection.
Qed.

Lemma handle_message_effects_witness :
  (BaseServerClient._handle_message
     (BaseServerClient.set_ws (Some 7%nat)
        (BaseServerClient.init default_config
           (Some (adapter_with "create_box" (raising true KeyboardInterrupt)))))
     (BaseServerClient.Decoded
        (VDict (<["params" := VList []]> execute_command_frame)))).2
  = Raises KeyboardInterrupt
  ∧ exc_is_Exception KeyboardInterrupt = false
  ∧ (BaseServerClient._handle_message
       (BaseServerClient.set_ws (Some 7%nat)
          (BaseServerClient.init default_config
             (Some {| BaseAdapter._handlers := ∅;
                      BaseAdapter.health_check := Raises ValueError;
                      BaseAdapter.capabilities := [] |})))
       (BaseServerClient.Decoded (VDict (<["type" := VStr "health_check"]> ∅)))).2
    = Returns None.
Proof.
  split; [reflexivity|]. split; [|reflexivity].
  apply (handle_message_effects
           (BaseServerClient.set_ws (Some 7%nat)
              (BaseServerClient.init default_config
                 (Some (adapter_with "create_box" (raising true KeyboardInterrupt)))))
           (BaseServerClient.Decoded
              (VDict (<["params" := VList []]> execute_command_frame)))).
  reflexivity.
Defined.

(** X10: _handle_execute_command never returns None: it builds a reply or
    lets an exception of adapter.execute through, and it builds one also
    for a frame whose command_type is not a string or whose params is not
    a mapping, since it tests neither.  Every reply, with or without
    adapter, is a command_result frame that echoes the request id of the
    message (None when it has none) and carries a boolean success; the
    Result spread into it can add data and error only, so it cannot
    overwrite the type or the request id. *)
Theorem execute_command_reply_envelope
    (c : BaseServerClient.t) (message : dict) :
  match BaseServerClient._handle_execute_command c message with
  | Returns (BaseServerClient.Response frame) =>
      frame !! "type" = Some (VStr "command_result")
      ∧ frame !! "request_id" = Some (dict_get message "request_id")
      ∧ (∃ b, frame !! "success" = Some (VBool b))
      ∧ dom frame ⊆ ({["type"; "request_id"; "success"; "data"; "error"]} : gset string)
  | Returns BaseServerClient.NoResponse => False
  | Raises e =>
      ∃ a, BaseServerClient.adapter c = Some a
           ∧ BaseAdapter.execute_any a
               (dict_get_or message "command_type" (VStr ""))
               (dict_get_or message "params" (VDict ∅)) = Raises e
  end.
Proof.
  unfold BaseServerClient._handle_execute_command.
  destruct (BaseServerClient.adapter c) as [a|].
  - destruct (BaseAdapter.execute_any a _ _) as [result|e] eqn:Hexec;
      [|by exists a].
    assert (Hnot : ∀ k, k ∉ ({["success"; "data"; "error"]} : gset string) →
                        AdapterResult.to_wire result !! k = None).
    { intros k Hk. apply not_elem_of_dom. pose proof (to_wire_dom result). set_solver. }
    split; [|split; [|split]].
    + rewrite lookup_union_r by (apply Hnot; set_solver).
      unfold BaseServerClient.command_result_header. by simplify_map_eq.
    + rewrite lookup_union_r by (apply Hnot; set_solver).
      unfold BaseServerClient.command_result_header. by simplify_map_eq.
    + exists (AdapterResult.success result).
      apply lookup_union_Some_l, to_wire_success.
    + rewrite dom_union_L. pose proof (to_wire_dom result).
      unfold BaseServerClient.command_result_header. rewrite !dom_insert_L. set_solver.
  - unfold BaseServerClient.command_result_header.
    split; [by simplify_map_eq|]. split; [by simplify_map_eq|].
    split; [exists false; by simplify_map_eq|].
    rewrite !dom_insert_L. set_solver.
Qed.

Lemma execute_command_reply_envelope_witness :
  ∃ frame : dict,
    BaseServerClient._handle_execute_command
      (BaseServerClient.init default_config
         (Some (adapter_with "create_box"
                  (returning true (BaseAdapter.RetValue (VDict ∅))))))
      untyped_command_frame
    = Returns (BaseServerClient.Response frame)
    ∧ frame !! "error" = Some (VStr "Unknown command: 7")
    ∧ frame !! "type" = Some (VStr "command_result")
    ∧ frame !! "request_id" = Some (VStr "req-789").
Proof.
  pose proof (execute_command_reply_envelope
                (BaseServerClient.init default_config
                   (Some (adapter_with "create_box"
                            (returning true (BaseAdapter.RetValue (VDict ∅))))))
                untyped_command_frame) as Henvelope.
  eexists. split; [reflexivity|]. split; [reflexivity|].
  split; [exact (proj1 Henvelope) | exact (proj1 (proj2 Henvelope))].
Defined.

(** X11: disconnect() is safe in every state: afterwards the loop flag is
    cleared, the handle is gone, the state is Disconnected and the counter
    is kept; a second disconnect changes nothing; the run loop, entered with
    the client so left, ends at once whatever the network would do; and a
    later connect() is not short-circuited but runs the connection
    sequence. *)
Theorem disconnect_always_safe
    (c : BaseServerClient.t) (script : list BaseServerClient.env_event)
    (h : BaseServerClient.ws_handle) :
  BaseServerClient._running (BaseServerClient.disconnect c) = false
  ∧ BaseServerClient._ws (BaseServerClient.disconnect c) = None
  ∧ BaseServerClient.state (BaseServerClient.disconnect c) = BaseServerClient.DISCONNECTED
  ∧ BaseServerClient.is_connected (BaseServerClient.disconnect c) = false
  ∧ BaseServerClient._reconnect_attempts (BaseServerClient.disconnect c)
    = BaseServerClient._reconnect_attempts c
  ∧ BaseServerClient.disconnect (BaseServerClient.disconnect c)
    = BaseServerClient.disconnect c
  ∧ BaseServerClient.run_loop script (BaseServerClient.disconnect c)
    = BaseServerClient.RunReturns (BaseServerClient.disconnect c)
  ∧ ∃ c', BaseServerClient.connect true (BaseServerClient.Registered h)
            (BaseServerClient.disconnect c) = (c', Returns true)
          ∧ BaseServerClient.is_connected c' = true
          ∧ BaseServerClient._ws c' = Some h.
Proof.
  destruct (disconnect_fields c) as (Hrun & Hws & Hst & Hn & Hcfg & Had).
  assert (Hconn : BaseServerClient.is_connected (BaseServerClient.disconnect c) = false).
  { unfold BaseServerClient.is_connected. by rewrite Hst. }
  do 5 (split; [done|]).
  split.
  { destruct (disconnect_fields (BaseServerClient.disconnect c))
      as (Hrun' & Hws' & Hst' & Hn' & Hcfg' & Had').
    destruct (BaseServerClient.disconnect (BaseServerClient.disconnect c)),
      (BaseServerClient.disconnect c); simpl in *. congruence. }
  split.
  { clear -Hrun. revert Hrun. generalize (BaseServerClient.disconnect c) as d.
    intros d Hd. destruct script; simpl; by rewrite Hd. }
  unfold BaseServerClient.connect. rewrite Hconn. simpl negb. cbv iota.
  eexists. split; [reflexivity|]. split; reflexivity.
Qed.

(* --------------------------------------------------------------------- *)
(* Persistent server client: the loop, further                           *)
(* --------------------------------------------------------------------- *)

Section RunLoopFurther.

Import BaseServerClient.

Implicit Types (c : BaseServerClient.t) (msgs : list inbound).

(** A client that disconnect() has stopped. *)
Let stopped c : Prop :=
  _running c = false ∧ _ws c = None ∧ _state c = DISCONNECTED.

(** A connected client has a full budget of attempts. *)
Let fresh_when_connected c : Prop :=
  is_connected c = true → _reconnect_attempts c = 0%Z.

Lemma handle_all_stopped msgs : ∀ c, stopped c → stopped (handle_all c msgs).1.
Proof.
  induction msgs as [|m msgs IH]; intros c Hc; [done|].
  simpl. pose proof (handle_message_client c m) as Hm.
  destruct (_handle_message c m) as [c' [u|e]]; simpl in *.
  - apply IH. destruct Hm as [-> | [-> _]]; [done|].
    destruct (disconnect_fields c) as (? & ? & ? & _). by repeat split.
  - destruct Hm as [-> | [_ ?]]; done.
Qed.

Lemma handle_all_after_disconnect msgs (message : dict) : ∀ c,
  message !! "type" = Some (VStr "disconnect") →
  Decoded (VDict message) ∈ msgs →
  (handle_all c msgs).2 = Returns tt →
  stopped (handle_all c msgs).1.
Proof.
  intros c Hty Hin. revert c.
  induction msgs as [|m msgs IH]; intros c Hret; [by apply elem_of_nil in Hin|].
  apply elem_of_cons in Hin as [<- | Hin].
  - simpl. unfold dict_get. rewrite Hty.
    change (lookup_handler (default VNone (Some (VStr "disconnect"))))
      with (Some HandleDisconnect).
    apply handle_all_stopped.
    destruct (disconnect_fields c) as (? & ? & ? & _). by repeat split.
  - simpl in *. destruct (_handle_message c m) as [c' [u|e]]; [|done].
    by apply IH.
Qed.

Lemma handle_all_raises msgs (e : py_exception) : ∀ c,
  (handle_all c msgs).2 = Raises e → exc_is_Exception e = false.
Proof.
  induction msgs as [|m msgs IH]; intros c; [done|].
  simpl. pose proof (handle_message_raises c m) as Hm.
  destruct (_handle_message c m) as [c' [u|e']]; simpl in *.
  - apply IH.
  - intros [= ->]. by apply Hm.
Qed.

Lemma handle_all_fresh msgs : ∀ c,
  fresh_when_connected c → fresh_when_connected (handle_all c msgs).1.
Proof.
  induction msgs as [|m msgs IH]; intros c Hc; [done|].
  simpl. pose proof (handle_message_client c m) as Hm.
  assert (Hc' : fresh_when_connected (_handle_message c m).1).
  { destruct Hm as [-> | [-> _]]; [done|].
    intros Hconn. unfold is_connected in Hconn.
    destruct (disconnect_fields c) as (_ & _ & Hst & _). by rewrite Hst in Hconn. }
  destruct (_handle_message c m) as [c' [u|e]]; simpl in *; [by apply IH | done].
Qed.

Lemma message_loop_fresh c msgs (e : stream_end) :
  fresh_when_connected c → fresh_when_connected (message_loop c msgs e).1.
Proof.
  intros Hc. unfold message_loop.
  pose proof (handle_all_fresh msgs c Hc) as Hall.
  destruct (handle_all c msgs) as [c' [u|exn]]; simpl in *; [|done].
  destruct e as [| | |exn]; simpl; try destruct (exc_is_Exception exn); simpl;
    try done; intros Hconn; unfold is_connected in Hconn; simpl in Hconn; done.
Qed.

(** The second half of an iteration that has just connected is the
    iteration of a client that is running and connected. *)
Lemma run_loop_connected (script : list env_event) c :
  _running c = true → is_connected c = true →
  run_loop script c
  = match script with
    | [] => RunWaiting c
    | EvConnect _ :: _ => RunMismatch c
    | EvSession msgs e :: script =>
        match message_loop c msgs e with
        | (c, Raises exn) => RunRaises exn c
        | (c, Returns _) => run_loop script c
        end
    end.
Proof. intros Hrun Hconn. destruct script; simpl; by rewrite Hrun, Hconn. Qed.

Lemma connect_success c (o : connect_event) c' :
  is_connected c = false →
  connect true o c = (c', Returns true) →
  is_connected c' = true ∧ _reconnect_attempts c' = 0%Z ∧ _running c' = _running c.
Proof.
  intros Hc. unfold connect. rewrite Hc. simpl.
  destruct o as [| | |e|h e]; try destruct (exc_is_Exception e);
    intros [= <-]; done.
Qed.

Lemma run_loop_fresh (script : list env_event) : ∀ c,
  fresh_when_connected c → fresh_when_connected (client_of (run_loop script c)).
Proof.
  induction script as [|ev script IH]; intros c Hc.
  - simpl. destruct (negb (_running c)); [done|].
    by destruct (negb (is_connected c)).
  - simpl. destruct (_running c) eqn:Hrun; simpl; [|done].
    destruct (is_connected c) eqn:Hconn; simpl.
    + destruct ev as [o|msgs e]; [done|].
      pose proof (message_loop_fresh c msgs e Hc) as Hloop.
      destruct (message_loop c msgs e) as [c' [u|exn]]; simpl in *; [by apply IH | done].
    + destruct ev as [o|msgs e]; [|done].
      destruct (connect true o c) as [c1 [[|]|exn]] eqn:Hconnect.
      * apply connect_success in Hconnect as (Hconn1 & Hn1 & Hrun1); [|done].
        rewrite <- run_loop_connected by congruence.
        apply IH. by intros _.
      * unfold connect in Hconnect. rewrite Hconn in Hconnect. simpl in Hconnect.
        assert (Hst : _state c1 = DISCONNECTED)
          by (destruct o as [| | |e|h e]; try destruct (exc_is_Exception e);
              by injection Hconnect as <-).
        assert (Hfresh : ∀ n, fresh_when_connected (set_reconnect_attempts n c1)).
        { intros n Hn. unfold is_connected in Hn. simpl in Hn. by rewrite Hst in Hn. }
        destruct (_ >? _)%Z; simpl; [apply Hfresh | apply IH, Hfresh].
      * unfold connect in Hconnect. rewrite Hconn in Hconnect. simpl in Hconnect.
        destruct o as [| | |e|h e]; try destruct (exc_is_Exception e); try done;
          injection Hconnect as <- _; intros Hc1; unfold is_connected in Hc1;
          simpl in Hc1; done.
Qed.

End RunLoopFurther.

(** X12: a disconnect request from the server ends run.  If a running,
    connected client receives a disconnect message among the messages of an
    iteration, then, whatever else the network holds in store, either run
    returns when that iteration is over, with the loop flag cleared and
    without connection handle, never attempting to reconnect, the state
    reading Disconnected if the iteration simply ran out of messages and
    Reconnecting if it ended in an error; or an exception leaves run from
    that iteration, and then it is one outside the Exception hierarchy. *)
Theorem disconnect_message_ends_run
    (c : BaseServerClient.t) (msgs : list BaseServerClient.inbound)
    (e : BaseServerClient.stream_end) (script : list BaseServerClient.env_event)
    (message : dict) :
  BaseServerClient._running c = true →
  BaseServerClient.is_connected c = true →
  message !! "type" = Some (VStr "disconnect") →
  BaseServerClient.Decoded (VDict message) ∈ msgs →
  match BaseServerClient.run_loop (BaseServerClient.EvSession msgs e :: script) c with
  | BaseServerClient.RunReturns c' =>
      BaseServerClient._running c' = false
      ∧ BaseServerClient._ws c' = None
      ∧ BaseServerClient.is_connected c' = false
      ∧ BaseServerClient.state c'
        = match e with
          | BaseServerClient.Exhausted => BaseServerClient.DISCONNECTED
          | _ => BaseServerClient.RECONNECTING
          end
  | BaseServerClient.RunRaises exn _ => exc_is_Exception exn = false
  | _ => False
  end.
Proof.
  intros Hrun Hconn Hty Hin. simpl. rewrite Hrun, Hconn. simpl.
  unfold BaseServerClient.message_loop.
  pose proof (handle_all_after_disconnect msgs message c Hty Hin) as Hstop.
  pose proof (handle_all_raises msgs) as Hraise. specialize (Hraise) with (c := c).
  destruct (BaseServerClient.handle_all c msgs) as [c' [[]|exn]]; simpl in *.
  - destruct (Hstop eq_refl) as (Hr & Hw & Hs).
    assert (Hend : ∀ c'', BaseServerClient._running c'' = false →
              BaseServerClient.run_loop script c'' = BaseServerClient.RunReturns c'')
      by (intros c'' Hc''; destruct script; simpl; by rewrite Hc'').
    destruct e as [| | |exn']; try destruct (exc_is_Exception exn') eqn:Hexn;
      try rewrite Hend by done; unfold BaseServerClient.is_connected,
      BaseServerClient.state; simpl; rewrite ?Hs, ?Hw; done.
  - by apply Hraise.
Qed.

Lemma disconnect_message_ends_run_witness :
  match BaseServerClient.run_loop
          [BaseServerClient.EvSession
             [BaseServerClient.Malformed;
              BaseServerClient.Decoded (VDict (<["type" := VStr "disconnect"]> ∅))]
             BaseServerClient.ConnectionClosed;
           BaseServerClient.EvConnect (BaseServerClient.Registered 8%nat)]
          connected_client with
  | BaseServerClient.RunReturns c' =>
      BaseServerClient._running c' = false
      ∧ BaseServerClient._ws c' = None
      ∧ BaseServerClient.is_connected c' = false
      ∧ BaseServerClient.state c' = BaseServerClient.RECONNECTING
  | BaseServerClient.RunRaises exn _ => exc_is_Exception exn = false
  | _ => False
  end.
Proof.
  apply (disconnect_message_ends_run connected_client
           [BaseServerClient.Malformed;
            BaseServerClient.Decoded (VDict (<["type" := VStr "disconnect"]> ∅))]
           BaseServerClient.ConnectionClosed
           [BaseServerClient.EvConnect (BaseServerClient.Registered 8%nat)]
           (<["type" := VStr "disconnect"]> ∅)).
  - reflexivity.
  - reflexivity.
  - reflexivity.
  - apply elem_of_cons. right. apply elem_of_cons. by left.
Defined.

(** X13: while the client is connected its reconnect counter is zero.  If
    that holds when run is entered (as it does for a new client), it holds
    for the client as run leaves it, whatever the network did and however
    the run ended. *)
Theorem connected_client_has_zero_counter
    (script : list BaseServerClient.env_event) (c : BaseServerClient.t) :
  (BaseServerClient.is_connected c = true → BaseServerClient._reconnect_attempts c = 0%Z) →
  BaseServerClient.is_connected
    (BaseServerClient.client_of (BaseServerClient.run true script c)) = true →
  BaseServerClient._reconnect_attempts
    (BaseServerClient.client_of (BaseServerClient.run true script c)) = 0%Z.
Proof.
  intros Hc. unfold BaseServerClient.run. simpl.
  apply run_loop_fresh. exact Hc.
Qed.

Lemma connected_client_has_zero_counter_witness :
  BaseServerClient._reconnect_attempts
    (BaseServerClient.client_of
       (BaseServerClient.run true
          [BaseServerClient.EvConnect BaseServerClient.OpenFails;
           BaseServerClient.EvConnect BaseServerClient.OpenFails;
           BaseServerClient.EvConnect (BaseServerClient.Registered 5%nat)]
          (BaseServerClient.init default_config None))) = 0%Z.
Proof.
  apply (connected_client_has_zero_counter
           [BaseServerClient.EvConnect BaseServerClient.OpenFails;
            BaseServerClient.EvConnect BaseServerClient.OpenFails;
            BaseServerClient.EvConnect (BaseServerClient.Registered 5%nat)]
           (BaseServerClient.init default_config None)).
  - reflexivity.
  - reflexivity.
Defined.

(** X14: AdapterRunner.run releases the connection on every exit.  Whenever
    it finishes, by returning or by raising, the client is Disconnected,
    holds no connection handle and has its loop flag cleared; it returns
    where the client's run returned or raised KeyboardInterrupt, and raises
    exactly the other exceptions of the client's run. *)
Theorem runner_run_always_disconnects
    (is_KeyboardInterrupt : py_exception → bool) (websockets_installed : bool)
    (script : list BaseServerClient.env_event) (client : BaseServerClient.t) :
  match AdapterRunner.run is_KeyboardInterrupt websockets_installed script client with
  | BaseServerClient.RunReturns c' =>
      BaseServerClient.state c' = BaseServerClient.DISCONNECTED
      ∧ BaseServerClient._ws c' = None
      ∧ BaseServerClient._running c' = false
      ∧ ((∃ c0, BaseServerClient.run websockets_installed script client
                = BaseServerClient.RunReturns c0)
         ∨ (∃ e c0, BaseServerClient.run websockets_installed script client
                    = BaseServerClient.RunRaises e c0
                    ∧ is_KeyboardInterrupt e = true))
  | BaseServerClient.RunRaises e c' =>
      BaseServerClient.state c' = BaseServerClient.DISCONNECTED
      ∧ BaseServerClient._ws c' = None
      ∧ BaseServerClient._running c' = false
      ∧ is_KeyboardInterrupt e = false
      ∧ ∃ c0, BaseServerClient.run websockets_installed script client
              = BaseServerClient.RunRaises e c0
  | unfinished =>
      BaseServerClient.run websockets_installed script client = unfinished
  end.
Proof.
  unfold AdapterRunner.run.
  destruct (BaseServerClient.run websockets_installed script client) as [c|e c|c|c];
    try done.
  - destruct (disconnect_fields c) as (? & ? & ? & _). repeat split; eauto.
  - destruct (disconnect_fields c) as (? & ? & ? & _).
    destruct (is_KeyboardInterrupt e) eqn:Hk; repeat split; eauto.
Qed.

(* --------------------------------------------------------------------- *)
(* Threaded socket server: the queue                                     *)
(* --------------------------------------------------------------------- *)

Section Queue.

Import SocketServerMixin.

Implicit Types (s : SocketServerMixin.t) (op : operation) (exec : executor).

Lemma process_one_contained exec s op (rest : list operation) :
  contained exec op →
  process_one exec s op rest
  = ({| _server_running := _server_running s;
        _operation_queue := rest;
        _result_map := <[op_request_id op := executed exec op]> (_result_map s);
        _result_events := _result_events s;
        event_sets :=
          match _result_events s !! op_request_id op with
          | Some ev => <[ev := S (default 0%nat (event_sets s !! ev))]> (event_sets s)
          | None => event_sets s
          end;
        next_event := next_event s |}, Returns tt).
Proof.
  intros Hc. unfold process_one, executed.
  destruct (exec (op_type op) (op_params op)) as [result|e] eqn:Hexec; [done|].
  by rewrite (Hc e Hexec).
Qed.

Lemma process_loop_contained exec (n : nat) : ∀ s,
  Forall (contained exec) (_operation_queue s) →
  ∃ s', process_loop exec n s = (s', Returns tt)
        ∧ _operation_queue s' = drop n (_operation_queue s)
        ∧ _result_events s' = _result_events s
        ∧ _server_running s' = _server_running s
        ∧ (∀ request_id,
             request_id ∉ op_request_id <$> take n (_operation_queue s) →
             _result_map s' !! request_id = _result_map s !! request_id)
        ∧ (NoDup (op_request_id <$> take n (_operation_queue s)) →
           ∀ op, op ∈ take n (_operation_queue s) →
                 _result_map s' !! op_request_id op = Some (executed exec op)).
Proof.
  induction n as [|n IH]; intros s Hall.
  - exists s. simpl. rewrite drop_0. repeat split; try done.
    intros _ op Hop. by apply elem_of_nil in Hop.
  - simpl. destruct (_operation_queue s) as [|op rest] eqn:Hq.
    + exists s. rewrite Hq. simpl. repeat split; try done.
      intros _ op Hop. by apply elem_of_nil in Hop.
    + apply Forall_cons in Hall as [Hop Hrest].
      rewrite (process_one_contained exec s op rest Hop).
      destruct (IH {| _server_running := _server_running s;
                      _operation_queue := rest;
                      _result_map := <[op_request_id op := executed exec op]> (_result_map s);
                      _result_events := _result_events s;
                      event_sets :=
                        match _result_events s !! op_request_id op with
                        | Some ev =>
                            <[ev := S (default 0%nat (event_sets s !! ev))]> (event_sets s)
                        | None => event_sets s
                        end;
                      next_event := next_event s |} Hrest)
        as (s' & Hloop & Hqueue & Hev & Hrun & Hframe & Hstored).
      exists s'. rewrite Hloop. simpl in *.
      split; [done|]. split; [done|]. split; [done|]. split; [done|]. split.
      * intros request_id Hnot. apply not_elem_of_cons in Hnot as [Hne Hnot].
        rewrite (Hframe request_id Hnot). by rewrite lookup_insert_ne.
      * intros Hnodup op' Hin. apply NoDup_cons in Hnodup as [Hfresh Hnodup].
        apply elem_of_cons in Hin as [-> | Hin]; [|by apply Hstored].
        rewrite (Hframe _ Hfresh). apply lookup_insert_eq.
Qed.

End Queue.

(** X15: on a running server whose executor raises nothing outside the
    Exception hierarchy, server_process_queue(executor, max_ops) returns
    True, takes exactly the first max_ops operations off the queue (all of
    them if there are fewer, none if max_ops is zero or negative) and leaves
    the rest in order; it never touches the event registrations; it leaves
    the results of request ids that were not processed as they were, and,
    when the processed request ids are pairwise distinct, it stores for each
    processed operation the result of the executor (or the error mapping of
    the exception) under its request id. *)
Theorem process_queue_takes_the_front
    (exec : SocketServerMixin.executor) (max_ops : Z) (s : SocketServerMixin.t) :
  SocketServerMixin._server_running s = true →
  Forall (SocketServerMixin.contained exec) (SocketServerMixin._operation_queue s) →
  ∃ s', SocketServerMixin.server_process_queue exec max_ops s = (s', Returns true)
        ∧ SocketServerMixin._operation_queue s'
          = drop (Z.to_nat max_ops) (SocketServerMixin._operation_queue s)
        ∧ SocketServerMixin._result_events s' = SocketServerMixin._result_events s
        ∧ (∀ request_id,
             request_id ∉ SocketServerMixin.op_request_id
                            <$> take (Z.to_nat max_ops) (SocketServerMixin._operation_queue s) →
             SocketServerMixin._result_map s' !! request_id
             = SocketServerMixin._result_map s !! request_id)
        ∧ (NoDup (SocketServerMixin.op_request_id
                    <$> take (Z.to_nat max_ops) (SocketServerMixin._operation_queue s)) →
           ∀ op, op ∈ take (Z.to_nat max_ops) (SocketServerMixin._operation_queue s) →
                 SocketServerMixin._result_map s' !! SocketServerMixin.op_request_id op
                 = Some (SocketServerMixin.executed exec op)).
Proof.
  intros Hrun Hall. unfold SocketServerMixin.server_process_queue. rewrite Hrun. simpl.
  destruct (process_loop_contained exec (Z.to_nat max_ops) s Hall)
    as (s' & -> & Hqueue & Hev & _ & Hframe & Hstored).
  by exists s'.
Qed.

Lemma process_queue_takes_the_front_witness :
  ∃ s', SocketServerMixin.server_process_queue box_executor 10 queued_server
        = (s', Returns true)
        ∧ SocketServerMixin._operation_queue s'
          = drop (Z.to_nat 10) (SocketServerMixin._operation_queue queued_server)
        ∧ SocketServerMixin._result_events s'
          = SocketServerMixin._result_events queued_server
        ∧ (∀ request_id,
             request_id ∉ SocketServerMixin.op_request_id
                            <$> take (Z.to_nat 10)
                                  (SocketServerMixin._operation_queue queued_server) →
             SocketServerMixin._result_map s' !! request_id
             = SocketServerMixin._result_map queued_server !! request_id)
        ∧ (NoDup (SocketServerMixin.op_request_id
                    <$> take (Z.to_nat 10)
                          (SocketServerMixin._operation_queue queued_server)) →
           ∀ op, op ∈ take (Z.to_nat 10)
                        (SocketServerMixin._operation_queue queued_server) →
                 SocketServerMixin._result_map s' !! SocketServerMixin.op_request_id op
                 = Some (SocketServerMixin.executed box_executor op)).
Proof.
  apply (process_queue_takes_the_front box_executor 10 queued_server).
  - reflexivity.
  - repeat constructor. intros e He. discriminate He.
Defined.

(** Rewriting of lookups in maps built by insertions and deletions. *)
Ltac map_steps :=
  repeat first
    [ rewrite lookup_insert_eq
    | rewrite lookup_insert_ne by done
    | rewrite lookup_delete_eq
    | rewrite lookup_delete_ne by done
    | rewrite delete_insert_eq
    | progress simpl ].

Section Waiting.

Import SocketServerMixin.

Implicit Types (s : SocketServerMixin.t) (cmd : command) (exec : executor).

(** The state in which the connection thread starts to wait. *)
Lemma queue_and_wait_begin_object s cmd (uuid4 : string) :
  _server_queue_and_wait_begin s (Object cmd) uuid4
  = ({| _server_running := _server_running s;
        _operation_queue := _operation_queue s ++ [operation_of cmd uuid4];
        _result_map := _result_map s;
        _result_events :=
          <[op_request_id (operation_of cmd uuid4) := next_event s]> (_result_events s);
        event_sets := <[next_event s := 0%nat]> (event_sets s);
        next_event := S (next_event s) |},
     Returns (Waiting (op_request_id (operation_of cmd uuid4)) (next_event s))).
Proof. reflexivity. Qed.

Lemma process_queue_contained exec (max_ops : Z) s :
  _server_running s = true →
  Forall (contained exec) (_operation_queue s) →
  (server_process_queue exec max_ops s).1
  = (process_loop exec (Z.to_nat max_ops) s).1.
Proof.
  intros Hrun Hall. unfold server_process_queue. rewrite Hrun. simpl.
  destruct (process_loop_contained exec (Z.to_nat max_ops) s Hall) as (s' & -> & _).
  done.
Qed.

End Waiting.

(** X16: a request that is served while its caller waits.  On a running
    server with an empty queue, if the execution thread drains the queue
    (max_ops at least 1) during the wait and the executor raises nothing
    outside the Exception hierarchy on the command, _server_queue_and_wait
    returns the executor's result for that command (the error mapping with
    the exception's text if it raised), and afterwards the queue is empty
    and neither map has an entry for the request id. *)
Theorem queue_and_wait_served
    (s : SocketServerMixin.t) (cmd : SocketServerMixin.command) (uuid4 : string)
    (exec : SocketServerMixin.executor) (max_ops : Z) :
  SocketServerMixin._server_running s = true →
  SocketServerMixin._operation_queue s = [] →
  (1 ≤ max_ops)%Z →
  SocketServerMixin.contained exec (SocketServerMixin.operation_of cmd uuid4) →
  ∃ s', SocketServerMixin._server_queue_and_wait s (SocketServerMixin.Object cmd) uuid4
          (λ s1, (SocketServerMixin.server_process_queue exec max_ops s1).1)
        = (s', Returns (SocketServerMixin.executed exec
                          (SocketServerMixin.operation_of cmd uuid4)))
        ∧ SocketServerMixin._operation_queue s' = []
        ∧ SocketServerMixin._result_map s'
          = delete (default uuid4 (SocketServerMixin.cmd_request_id cmd))
              (SocketServerMixin._result_map s)
        ∧ SocketServerMixin._result_events s'
          = delete (default uuid4 (SocketServerMixin.cmd_request_id cmd))
              (SocketServerMixin._result_events s).
Proof.
  intros Hrun Hq Hmax Hsafe.
  unfold SocketServerMixin._server_queue_and_wait.
  rewrite queue_and_wait_begin_object. rewrite Hq. simpl app.
  rewrite process_queue_contained; [|done|by repeat constructor].
  destruct (Z.to_nat max_ops) as [|n] eqn:Hn; [lia|].
  simpl SocketServerMixin.process_loop.
  rewrite (process_one_contained exec _ _ [] Hsafe). simpl.
  rewrite lookup_insert_eq.
  assert (Hloop : ∀ s0, SocketServerMixin._operation_queue s0 = [] →
            SocketServerMixin.process_loop exec n s0 = (s0, Returns tt)).
  { intros s0 Hs0. destruct n; simpl; [done|]. by rewrite Hs0. }
  rewrite Hloop by done. simpl.
  unfold SocketServerMixin._server_queue_and_wait_end, SocketServerMixin.is_set. simpl.
  rewrite !lookup_insert_eq. simpl.
  eexists. split; [reflexivity|]. simpl.
  by rewrite !delete_insert_eq.
Qed.

Lemma queue_and_wait_served_witness :
  ∃ s', SocketServerMixin._server_queue_and_wait
          (SocketServerMixin.server_start SocketServerMixin.server_init)
          (SocketServerMixin.Object delete_command) "4f6c"
          (λ s1, (SocketServerMixin.server_process_queue echo_executor 10 s1).1)
        = (s', Returns (SocketServerMixin.executed echo_executor
                          (SocketServerMixin.operation_of delete_command "4f6c")))
        ∧ SocketServerMixin._operation_queue s' = []
        ∧ SocketServerMixin._result_map s'
          = delete (default "4f6c" (SocketServerMixin.cmd_request_id delete_command))
              (SocketServerMixin._result_map
                 (SocketServerMixin.server_start SocketServerMixin.server_init))
        ∧ SocketServerMixin._result_events s'
          = delete (default "4f6c" (SocketServerMixin.cmd_request_id delete_command))
              (SocketServerMixin._result_events
                 (SocketServerMixin.server_start SocketServerMixin.server_init)).
Proof.
  apply (queue_and_wait_served
           (SocketServerMixin.server_start SocketServerMixin.server_init)
           delete_command "4f6c" echo_executor 10).
  - reflexivity.
  - reflexivity.
  - lia.
  - intros e He. vm_compute in He. by injection He as <-.
Defined.

(** X17: a request that nobody serves.  Whatever the state of the server,
    if nothing happens while the caller waits, _server_queue_and_wait
    returns the error mapping Operation timed out and removes the event
    registration of its request id; the result map is as before, and the
    operation is still the last one on the queue, so it can still be
    executed later. *)
Theorem queue_and_wait_unserved
    (s : SocketServerMixin.t) (cmd : SocketServerMixin.command) (uuid4 : string) :
  ∃ s', SocketServerMixin._server_queue_and_wait s (SocketServerMixin.Object cmd) uuid4 id
        = (s', Returns (SocketServerMixin.error_response "Operation timed out"))
        ∧ SocketServerMixin._result_events s'
          = delete (default uuid4 (SocketServerMixin.cmd_request_id cmd))
              (SocketServerMixin._result_events s)
        ∧ SocketServerMixin._result_map s' = SocketServerMixin._result_map s
        ∧ SocketServerMixin._operation_queue s'
          = (SocketServerMixin._operation_queue s
               ++ [SocketServerMixin.operation_of cmd uuid4])%list
        ∧ SocketServerMixin.server_queue_size s'
          = S (SocketServerMixin.server_queue_size s).
Proof.
  unfold SocketServerMixin._server_queue_and_wait.
  rewrite queue_and_wait_begin_object. simpl.
  unfold SocketServerMixin._server_queue_and_wait_end, SocketServerMixin.is_set. simpl.
  rewrite lookup_insert_eq. simpl.
  eexists. split; [reflexivity|]. simpl.
  split; [by rewrite delete_insert_eq|]. split; [done|]. split; [done|].
  unfold SocketServerMixin.server_queue_size. simpl. rewrite length_app. simpl. lia.
Qed.

(** X18: two requests with distinct request ids that wait at the same time
    are each answered with their own result.  On a running server with an
    empty queue, the first request queues its command and waits; the second
    does the same; the execution thread then drains the queue (max_ops at
    least 2, executor raising nothing outside the Exception hierarchy).
    The second caller gets the executor's result for the second command, the
    first caller the result for the first, and afterwards the queue is empty
    and neither map has an entry for either id. *)
Theorem concurrent_requests_get_their_own_results
    (s : SocketServerMixin.t) (cmd1 cmd2 : SocketServerMixin.command)
    (uuid1 uuid2 : string) (exec : SocketServerMixin.executor) (max_ops : Z) :
  SocketServerMixin._server_running s = true →
  SocketServerMixin._operation_queue s = [] →
  (2 ≤ max_ops)%Z →
  default uuid1 (SocketServerMixin.cmd_request_id cmd1)
    ≠ default uuid2 (SocketServerMixin.cmd_request_id cmd2) →
  SocketServerMixin.contained exec (SocketServerMixin.operation_of cmd1 uuid1) →
  SocketServerMixin.contained exec (SocketServerMixin.operation_of cmd2 uuid2) →
  ∃ s2 s',
    SocketServerMixin._server_queue_and_wait
      (SocketServerMixin._server_queue_and_wait_begin s
         (SocketServerMixin.Object cmd1) uuid1).1
      (SocketServerMixin.Object cmd2) uuid2
      (λ s0, (SocketServerMixin.server_process_queue exec max_ops s0).1)
    = (s2, Returns (SocketServerMixin.executed exec
                      (SocketServerMixin.operation_of cmd2 uuid2)))
    ∧ SocketServerMixin._server_queue_and_wait s (SocketServerMixin.Object cmd1) uuid1
        (λ s1, (SocketServerMixin._server_queue_and_wait s1
                  (SocketServerMixin.Object cmd2) uuid2
                  (λ s0, (SocketServerMixin.server_process_queue exec max_ops s0).1)).1)
      = (s', Returns (SocketServerMixin.executed exec
                        (SocketServerMixin.operation_of cmd1 uuid1)))
    ∧ SocketServerMixin._operation_queue s' = []
    ∧ SocketServerMixin._result_map s'
        !! default uuid1 (SocketServerMixin.cmd_request_id cmd1) = None
    ∧ SocketServerMixin._result_map s'
        !! default uuid2 (SocketServerMixin.cmd_request_id cmd2) = None
    ∧ SocketServerMixin._result_events s'
        !! default uuid1 (SocketServerMixin.cmd_request_id cmd1) = None
    ∧ SocketServerMixin._result_events s'
        !! default uuid2 (SocketServerMixin.cmd_request_id cmd2) = None.
Proof.
  intros Hrun Hq Hmax Hne Hsafe1 Hsafe2.
  assert (Hne' := not_eq_sym Hne).
  assert (Hev : SocketServerMixin.next_event s ≠ S (SocketServerMixin.next_event s)) by lia.
  assert (Hev' := not_eq_sym Hev).
  unfold SocketServerMixin._server_queue_and_wait.
  rewrite !queue_and_wait_begin_object. simpl. rewrite Hq. simpl app.
  rewrite process_queue_contained; [|exact Hrun|by repeat constructor].
  destruct (Z.to_nat max_ops) as [|[|n]] eqn:Hn; [lia|lia|].
  simpl SocketServerMixin.process_loop.
  rewrite (process_one_contained exec _ _ _ Hsafe1). simpl.
  rewrite (process_one_contained exec _ _ _ Hsafe2). simpl.
  assert (Hloop : ∀ s0, SocketServerMixin._operation_queue s0 = [] →
            SocketServerMixin.process_loop exec n s0 = (s0, Returns tt)).
  { intros s0 Hs0. destruct n; simpl; [done|]. by rewrite Hs0. }
  rewrite Hloop by done.
  unfold SocketServerMixin._server_queue_and_wait_end, SocketServerMixin.is_set.
  map_steps.
  do 2 eexists. split; [reflexivity|]. split; [reflexivity|].
  map_steps. done.
Qed.

Lemma concurrent_requests_get_their_own_results_witness :
  ∃ s2 s',
    SocketServerMixin._server_queue_and_wait
      (SocketServerMixin._server_queue_and_wait_begin
         (SocketServerMixin.server_start SocketServerMixin.server_init)
         (SocketServerMixin.Object create_box_command) "4f6c").1
      (SocketServerMixin.Object delete_command) "9a1e"
      (λ s0, (SocketServerMixin.server_process_queue echo_executor 10 s0).1)
    = (s2, Returns (SocketServerMixin.executed echo_executor
                      (SocketServerMixin.operation_of delete_command "9a1e")))
    ∧ SocketServerMixin._server_queue_and_wait
        (SocketServerMixin.server_start SocketServerMixin.server_init)
        (SocketServerMixin.Object create_box_command) "4f6c"
        (λ s1, (SocketServerMixin._server_queue_and_wait s1
                  (SocketServerMixin.Object delete_command) "9a1e"
                  (λ s0, (SocketServerMixin.server_process_queue echo_executor 10 s0).1)).1)
      = (s', Returns (SocketServerMixin.executed echo_executor
                        (SocketServerMixin.operation_of create_box_command "4f6c")))
    ∧ SocketServerMixin._operation_queue s' = []
    ∧ SocketServerMixin._result_map s'
        !! default "4f6c" (SocketServerMixin.cmd_request_id create_box_command) = None
    ∧ SocketServerMixin._result_map s'
        !! default "9a1e" (SocketServerMixin.cmd_request_id delete_command) = None
    ∧ SocketServerMixin._result_events s'
        !! default "4f6c" (SocketServerMixin.cmd_request_id create_box_command) = None
    ∧ SocketServerMixin._result_events s'
        !! default "9a1e" (SocketServerMixin.cmd_request_id delete_command) = None.
Proof.
  apply (concurrent_requests_get_their_own_results
           (SocketServerMixin.server_start SocketServerMixin.server_init)
           create_box_command delete_command "4f6c" "9a1e" echo_executor 10).
  - reflexivity.
  - reflexivity.
  - lia.
  - discriminate.
  - intros e He. vm_compute in He. discriminate He.
  - intros e He. vm_compute in He. by injection He as <-.
Defined.

(** X19: the request id is the only key of a waiting request.  When a
    second request arrives under the request id of a request that is still
    waiting, it takes over the registration: once the execution thread has
    completed the first command (one operation per call), the second caller
    is woken and receives the result of the first command; the first caller
    is never woken and gets the timeout error; the second command is still
    on the queue. *)
Theorem reused_request_id_takes_over
    (s : SocketServerMixin.t) (cmd1 cmd2 : SocketServerMixin.command)
    (uuid1 uuid2 : string) (exec : SocketServerMixin.executor) :
  SocketServerMixin._server_running s = true →
  SocketServerMixin._operation_queue s = [] →
  default uuid1 (SocketServerMixin.cmd_request_id cmd1)
    = default uuid2 (SocketServerMixin.cmd_request_id cmd2) →
  SocketServerMixin.contained exec (SocketServerMixin.operation_of cmd1 uuid1) →
  ∃ s2 s',
    SocketServerMixin._server_queue_and_wait
      (SocketServerMixin._server_queue_and_wait_begin s
         (SocketServerMixin.Object cmd1) uuid1).1
      (SocketServerMixin.Object cmd2) uuid2
      (λ s0, (SocketServerMixin.server_process_queue exec 1 s0).1)
    = (s2, Returns (SocketServerMixin.executed exec
                      (SocketServerMixin.operation_of cmd1 uuid1)))
    ∧ SocketServerMixin._server_queue_and_wait s (SocketServerMixin.Object cmd1) uuid1
        (λ s1, (SocketServerMixin._server_queue_and_wait s1
                  (SocketServerMixin.Object cmd2) uuid2
                  (λ s0, (SocketServerMixin.server_process_queue exec 1 s0).1)).1)
      = (s', Returns (SocketServerMixin.error_response "Operation timed out"))
    ∧ SocketServerMixin._operation_queue s'
      = [SocketServerMixin.operation_of cmd2 uuid2].
Proof.
  intros Hrun Hq Hid Hsafe1.
  assert (Hev : SocketServerMixin.next_event s ≠ S (SocketServerMixin.next_event s)) by lia.
  assert (Hev' := not_eq_sym Hev).
  unfold SocketServerMixin._server_queue_and_wait.
  rewrite !queue_and_wait_begin_object. simpl. rewrite Hq. simpl app.
  unfold SocketServerMixin.server_process_queue. simpl. rewrite Hrun. simpl.
  rewrite (process_one_contained exec _ _ _ Hsafe1). simpl.
  rewrite <- Hid.
  unfold SocketServerMixin._server_queue_and_wait_end, SocketServerMixin.is_set.
  map_steps.
  do 2 eexists. split; [reflexivity|]. split; reflexivity.
Qed.

Lemma reused_request_id_takes_over_witness :
  ∃ s2 s',
    SocketServerMixin._server_queue_and_wait
      (SocketServerMixin._server_queue_and_wait_begin
         (SocketServerMixin.server_start SocketServerMixin.server_init)
         (SocketServerMixin.Object move_command) "4f6c").1
      (SocketServerMixin.Object delete_command) "9a1e"
      (λ s0, (SocketServerMixin.server_process_queue echo_executor 1 s0).1)
    = (s2, Returns (SocketServerMixin.executed echo_executor
                      (SocketServerMixin.operation_of move_command "4f6c")))
    ∧ SocketServerMixin._server_queue_and_wait
        (SocketServerMixin.server_start SocketServerMixin.server_init)
        (SocketServerMixin.Object move_command) "4f6c"
        (λ s1, (SocketServerMixin._server_queue_and_wait s1
                  (SocketServerMixin.Object delete_command) "9a1e"
                  (λ s0, (SocketServerMixin.server_process_queue echo_executor 1 s0).1)).1)
      = (s', Returns (SocketServerMixin.error_response "Operation timed out"))
    ∧ SocketServerMixin._operation_queue s'
      = [SocketServerMixin.operation_of delete_command "9a1e"].
Proof.
  apply (reused_request_id_takes_over
           (SocketServerMixin.server_start SocketServerMixin.server_init)
           move_command delete_command "4f6c" "9a1e" echo_executor).
  - reflexivity.
  - reflexivity.
  - reflexivity.
  - intros e He. vm_compute in He. discriminate He.
Defined.

(* --------------------------------------------------------------------- *)
(* Threaded socket server: framing                                       *)
(* --------------------------------------------------------------------- *)

Section Framing.

Import SocketServerMixin.

Implicit Types (s a b buffer line rest : string) (lines : list string).

Lemma append_cons (c : Ascii.ascii) a b : String c a +:+ b = String c (a +:+ b).
Proof. reflexivity. Qed.

Lemma append_assoc a b rest : (a +:+ b) +:+ rest = a +:+ (b +:+ rest).
Proof.
  induction a as [|c a IH]; [reflexivity|].
  rewrite !append_cons. by rewrite IH.
Qed.

Lemma append_length a b : String.length (a +:+ b) = (String.length a + String.length b)%nat.
Proof.
  induction a as [|c a IH]; [reflexivity|].
  rewrite append_cons. simpl. by rewrite IH.
Qed.

(** [partition_line] cuts at the first line feed. *)
Lemma partition_line_some s line rest :
  PyStr.partition_line s = Some (line, rest) →
  s = line +:+ String PyStr.LF rest ∧ PyStr.partition_line line = None.
Proof.
  revert line rest. induction s as [|c s IH]; intros line rest; [done|].
  simpl. destruct (Ascii.eqb c PyStr.LF) eqn:Hc.
  - intros [= <- <-]. apply Ascii.eqb_eq in Hc as ->. done.
  - destruct (PyStr.partition_line s) as [[l r]|]; [|done].
    intros [= <- <-]. destruct (IH l r eq_refl) as [-> Hl].
    split; [done|]. simpl. by rewrite Hc, Hl.
Qed.

Lemma partition_line_length s line rest :
  PyStr.partition_line s = Some (line, rest) →
  String.length s = S (String.length line + String.length rest).
Proof.
  intros [-> _]%partition_line_some. rewrite append_length. simpl. lia.
Qed.

Lemma partition_line_app a b :
  PyStr.partition_line (a +:+ b)
  = match PyStr.partition_line a with
    | Some (line, rest) => Some (line, rest +:+ b)
    | None =>
        match PyStr.partition_line b with
        | Some (line, rest) => Some (a +:+ line, rest)
        | None => None
        end
    end.
Proof.
  induction a as [|c a IH].
  - change (EmptyString +:+ b) with b. simpl.
    by destruct (PyStr.partition_line b) as [[l r]|].
  - rewrite append_cons. simpl. destruct (Ascii.eqb c PyStr.LF); [done|].
    rewrite IH. destruct (PyStr.partition_line a) as [[l r]|]; [done|].
    by destruct (PyStr.partition_line b) as [[l r]|].
Qed.

(** The number of turns allowed does not matter once it covers the
    length of the buffer. *)
Lemma take_lines_turns (n : nat) : ∀ (m : nat) s,
  (String.length s ≤ n)%nat → (String.length s ≤ m)%nat →
  take_lines n s = take_lines m s.
Proof.
  induction n as [|n IH]; intros m s Hn Hm.
  - destruct s; [|simpl in Hn; lia]. by destruct m.
  - destruct m as [|m].
    + destruct s; [done | simpl in Hm; lia].
    + simpl. destruct (PyStr.partition_line s) as [[line rest]|] eqn:Hp; [|done].
      apply partition_line_length in Hp.
      rewrite (IH m rest) by lia. done.
Qed.

Lemma complete_lines_none s :
  PyStr.partition_line s = None → complete_lines s = ([], s).
Proof.
  intros Hs. unfold complete_lines. destruct (String.length s); simpl; [done|].
  by rewrite Hs.
Qed.

Lemma complete_lines_some s line rest :
  PyStr.partition_line s = Some (line, rest) →
  complete_lines s = (line :: (complete_lines rest).1, (complete_lines rest).2).
Proof.
  intros Hs. unfold complete_lines.
  pose proof (partition_line_length _ _ _ Hs) as Hlen. rewrite Hlen. simpl.
  rewrite Hs. rewrite (take_lines_turns _ (String.length rest) rest) by lia.
  by destruct (take_lines (String.length rest) rest).
Qed.

(** Induction on the length of the buffer. *)
Lemma complete_lines_ind (P : string → Prop) :
  (∀ s, PyStr.partition_line s = None → P s) →
  (∀ s line rest, PyStr.partition_line s = Some (line, rest) → P rest → P s) →
  ∀ s, P s.
Proof.
  intros Hnone Hsome s.
  remember (String.length s) as n eqn:Hn.
  revert s Hn. induction n as [n IH] using lt_wf_ind. intros s ->.
  destruct (PyStr.partition_line s) as [[line rest]|] eqn:Hp; [|by apply Hnone].
  apply (Hsome s line rest Hp).
  apply (IH (String.length rest)); [|done].
  apply partition_line_length in Hp. lia.
Qed.

Lemma complete_lines_rest s : PyStr.partition_line (complete_lines s).2 = None.
Proof.
  induction s as [s Hs | s line rest Hs IH] using complete_lines_ind.
  - by rewrite complete_lines_none.
  - by rewrite (complete_lines_some s line rest Hs).
Qed.

Lemma complete_lines_unsplit s :
  unsplit (complete_lines s).1 (complete_lines s).2 = s
  ∧ Forall (λ line, PyStr.partition_line line = None) (complete_lines s).1.
Proof.
  induction s as [s Hs | s line rest Hs [IH1 IH2]] using complete_lines_ind.
  - by rewrite complete_lines_none.
  - rewrite (complete_lines_some s line rest Hs). simpl.
    destruct (partition_line_some _ _ _ Hs) as [-> Hline].
    rewrite IH1. split; [done|]. by constructor.
Qed.

Lemma complete_lines_app a b :
  complete_lines (a +:+ b)
  = (((complete_lines a).1 ++ (complete_lines ((complete_lines a).2 +:+ b)).1)%list,
     (complete_lines ((complete_lines a).2 +:+ b)).2).
Proof.
  induction a as [a Ha | a line rest Ha IH] using complete_lines_ind.
  - rewrite (complete_lines_none a Ha). simpl. by destruct (complete_lines (a +:+ b)).
  - rewrite (complete_lines_some a line rest Ha). simpl.
    rewrite (complete_lines_some (a +:+ b) line (rest +:+ b)).
    + by rewrite IH.
    + by rewrite partition_line_app, Ha.
Qed.

Lemma commands_of_app lines (more : list string) :
  commands_of (lines ++ more) = (commands_of lines ++ commands_of more)%list.
Proof. unfold commands_of. by rewrite filter_app, fmap_app. Qed.

Lemma hand_on_app (raises : string → bool) (commands more : list string) :
  hand_on raises (commands ++ more)
  = match hand_on raises commands with
    | (handed, true) => (handed, true)
    | (handed, false) =>
        ((handed ++ (hand_on raises more).1)%list, (hand_on raises more).2)
    end.
Proof.
  induction commands as [|command commands IH]; simpl.
  - by destruct (hand_on raises more).
  - destruct (raises command); [done|]. rewrite IH.
    by destruct (hand_on raises commands) as [handed [|]].
Qed.

Lemma hand_on_all (raises : string → bool) (commands : list string) :
  Forall (λ command, raises command = false) commands →
  hand_on raises commands = (commands, false).
Proof.
  induction 1 as [|command commands Hc _ IH]; simpl; [done|].
  by rewrite Hc, IH.
Qed.

(** The commands handed on are never more than the commands received. *)
Lemma hand_on_prefix (raises : string → bool) (commands : list string) :
  (hand_on raises commands).1 `prefix_of` commands.
Proof.
  induction commands as [|command commands IH]; simpl; [done|].
  destruct (raises command); simpl.
  - by apply prefix_cons, prefix_nil.
  - destruct (hand_on raises commands) as [handed raised]. simpl in *.
    by apply prefix_cons.
Qed.

(** The loop over the chunks, read off the text as a whole. *)
Lemma handle_client_joined (raises : string → bool) (chunks : list string) : ∀ buffer,
  PyStr.partition_line buffer = None →
  Forall (λ data, data ≠ EmptyString) chunks →
  _server_handle_client raises buffer chunks
  = match hand_on raises (commands_of (complete_lines (buffer +:+ joined chunks)).1) with
    | (handed, true) => (handed, None)
    | (handed, false) => (handed, Some (complete_lines (buffer +:+ joined chunks)).2)
    end.
Proof.
  induction chunks as [|data chunks IH]; intros buffer Hbuf Hall.
  - simpl. rewrite append_empty_r. by rewrite complete_lines_none.
  - apply Forall_cons in Hall as [Hdata Hall]. simpl.
    rewrite bool_decide_eq_false_2 by done.
    rewrite <- append_assoc, (complete_lines_app (buffer +:+ data)).
    destruct (complete_lines (buffer +:+ data)) as [lines rest] eqn:Hfirst. simpl.
    rewrite commands_of_app, hand_on_app.
    destruct (hand_on raises (commands_of lines)) as [handed [|]]; [done|].
    rewrite IH; [|by rewrite <- (complete_lines_rest (buffer +:+ data)), Hfirst|done].
    by destruct (hand_on raises (commands_of (complete_lines (rest +:+ joined chunks)).1))
      as [more [|]].
Qed.

End Framing.

(** X20: framing loses and invents nothing.  The lines that the loop of
    _server_handle_client takes off a buffer, each followed by a line feed,
    followed by the buffer that is left, are the original buffer; no line
    holds a line feed, and neither does what is left, so that the loop has
    really ended. *)
Theorem framing_splits_at_every_line_feed (buffer : string) :
  unsplit (SocketServerMixin.complete_lines buffer).1
          (SocketServerMixin.complete_lines buffer).2 = buffer
  ∧ Forall (λ line, PyStr.partition_line line = None)
           (SocketServerMixin.complete_lines buffer).1
  ∧ PyStr.partition_line (SocketServerMixin.complete_lines buffer).2 = None.
Proof.
  destruct (complete_lines_unsplit buffer) as [Hjoin Hlines].
  split; [done|]. split; [done|]. apply complete_lines_rest.
Qed.

(** X21: the commands taken from a connection do not depend on how the text
    was cut into chunks by the network.  While the server keeps running,
    and for chunks that each decode on their own (the chunks below are the
    decoded texts), whichever commands make _server_queue_and_wait or the
    send of the response raise (taken to depend on the command alone): two
    sequences of non-empty chunks that make up the same text, starting from
    the empty buffer, yield the same commands in the same order and end
    alike; both are read off the text taken as a whole: its commands up to and including the first one whose
    handling raises, which ends the connection, so that the later ones are
    never handed on.  When no command raises, every command of the text is
    handed on and the incomplete last line stays in the buffer. *)
Theorem framing_ignores_chunk_boundaries
    (raises : string → bool) (chunks1 chunks2 : list string) :
  Forall (λ data, data ≠ EmptyString) chunks1 →
  Forall (λ data, data ≠ EmptyString) chunks2 →
  joined chunks1 = joined chunks2 →
  SocketServerMixin._server_handle_client raises EmptyString chunks1
  = SocketServerMixin._server_handle_client raises EmptyString chunks2
  ∧ SocketServerMixin._server_handle_client raises EmptyString chunks1
    = match SocketServerMixin.hand_on raises
              (SocketServerMixin.commands_of
                 (SocketServerMixin.complete_lines (joined chunks1)).1) with
      | (handed, true) => (handed, None)
      | (handed, false) =>
          (handed, Some (SocketServerMixin.complete_lines (joined chunks1)).2)
      end
  ∧ (SocketServerMixin._server_handle_client raises EmptyString chunks1).1
    `prefix_of` SocketServerMixin.commands_of
                  (SocketServerMixin.complete_lines (joined chunks1)).1
  ∧ (Forall (λ command, raises command = false)
       (SocketServerMixin.commands_of
          (SocketServerMixin.complete_lines (joined chunks1)).1) →
     SocketServerMixin._server_handle_client raises EmptyString chunks1
     = (SocketServerMixin.commands_of
          (SocketServerMixin.complete_lines (joined chunks1)).1,
        Some (SocketServerMixin.complete_lines (joined chunks1)).2)).
Proof.
  intros H1 H2 Hsame.
  rewrite !handle_client_joined by done.
  change (EmptyString +:+ ?t) with t. rewrite <- Hsame.
  split; [done|]. split; [done|]. split.
  - pose proof (hand_on_prefix raises
      (SocketServerMixin.commands_of
         (SocketServerMixin.complete_lines (joined chunks1)).1)) as Hpre.
    by destruct (SocketServerMixin.hand_on raises _) as [handed [|]].
  - intros Hall. by rewrite (hand_on_all raises _ Hall).
Qed.

Lemma framing_ignores_chunk_boundaries_witness :
  SocketServerMixin._server_handle_client (λ command, String.eqb command "[1]") EmptyString
    ["{}" +:+ String PyStr.LF " [1"; "]" +:+ String PyStr.LF ("{}" +:+ String PyStr.LF "{")]
  = SocketServerMixin._server_handle_client (λ command, String.eqb command "[1]") EmptyString
      ["{"; "}" +:+ String PyStr.LF " [1]"; String PyStr.LF ("{}" +:+ String PyStr.LF "{")]
  ∧ SocketServerMixin._server_handle_client (λ command, String.eqb command "[1]") EmptyString
      ["{}" +:+ String PyStr.LF " [1"; "]" +:+ String PyStr.LF ("{}" +:+ String PyStr.LF "{")]
    = (["{}"; "[1]"], None).
Proof.
  pose proof (framing_ignores_chunk_boundaries (λ command, String.eqb command "[1]")
    ["{}" +:+ String PyStr.LF " [1"; "]" +:+ String PyStr.LF ("{}" +:+ String PyStr.LF "{")]
    ["{"; "}" +:+ String PyStr.LF " [1]"; String PyStr.LF ("{}" +:+ String PyStr.LF "{")])
    as Hframing.
  destruct Hframing as (Hsame & Hwhole & _).
  - repeat constructor; discriminate.
  - repeat constructor; discriminate.
  - reflexivity.
  - split; [exact Hsame | exact Hwhole].
Defined.

(* --------------------------------------------------------------------- *)
(* One-shot socket client                                                *)
(* --------------------------------------------------------------------- *)

Section SocketClient.

Import SocketClientMixin.

Variable loads : string → loaded.

Implicit Types (chunks received before : list string) (recvs after : list recv_event).

(** No text received so far has parsed. *)
Let unparsed (chunks received : list string) : Prop :=
  ∀ n, (0 < n ≤ length received)%nat →
       loads (joined_chunks (chunks ++ take n received)) = NotJSON.

Lemma unparsed_step chunks (chunk : string) received :
  unparsed chunks (chunk :: received) →
  loads (joined_chunks (chunks ++ [chunk])) = NotJSON
  ∧ unparsed (chunks ++ [chunk]) received.
Proof.
  intros H. split.
  - apply (H 1%nat). simpl. lia.
  - intros n Hn. rewrite <- (assoc_L (++)). apply (H (S n)). simpl. lia.
Qed.

Lemma receive_loop_first_parse before : ∀ chunks (chunk : string) after (v : value),
  Forall (λ data, data ≠ EmptyString) before →
  chunk ≠ EmptyString →
  unparsed chunks before →
  loads (joined_chunks (chunks ++ before ++ [chunk])) = Parsed v →
  socket_receive_loop loads chunks ((Data <$> before) ++ Data chunk :: after)
  = Returned v.
Proof.
  induction before as [|b before IH]; intros chunks chunk after v Hall Hchunk Hun Hv.
  - simpl. rewrite bool_decide_eq_false_2 by done. simpl in Hv. by rewrite Hv.
  - apply Forall_cons in Hall as [Hb Hall].
    apply unparsed_step in Hun as [Hnot Hun].
    simpl. rewrite bool_decide_eq_false_2 by done. rewrite Hnot.
    apply IH; try done. by rewrite <- (assoc_L (++)).
Qed.

Lemma receive_loop_closed received : ∀ chunks after,
  Forall (λ data, data ≠ EmptyString) received →
  unparsed chunks received →
  (chunks ≠ [] → loads (joined_chunks chunks) = NotJSON) →
  socket_receive_loop loads chunks ((Data <$> received) ++ Data EmptyString :: after)
  = Raised (match (chunks ++ received)%list with
            | [] => ConnectionError ClosedWithoutResponse
            | _ => JSONDecodeError
            end).
Proof.
  induction received as [|b received IH]; intros chunks after Hall Hun Hchunks.
  - simpl. rewrite (right_id_L [] (++)).
    destruct chunks as [|c chunks]; [done|]. by rewrite Hchunks.
  - apply Forall_cons in Hall as [Hb Hall].
    apply unparsed_step in Hun as [Hnot Hun].
    simpl. rewrite bool_decide_eq_false_2 by done. rewrite Hnot.
    rewrite IH; try done. by rewrite <- (assoc_L (++)).
Qed.

End SocketClient.

(** X22: socket_receive returns the first text that parses.  If the chunks
    received so far never parsed and the text with the next chunk does,
    socket_receive returns that value at once, without reading what the
    peer sends afterwards. *)
Theorem socket_receive_returns_first_parse
    (loads : string → SocketClientMixin.loaded) (before : list string) (chunk : string)
    (after : list SocketClientMixin.recv_event) (v : value) :
  Forall (λ data, data ≠ EmptyString) before →
  chunk ≠ EmptyString →
  (∀ n, (0 < n ≤ length before)%nat →
        loads (SocketClientMixin.joined_chunks (take n before)) = SocketClientMixin.NotJSON) →
  loads (SocketClientMixin.joined_chunks (before ++ [chunk])) = SocketClientMixin.Parsed v →
  SocketClientMixin.socket_receive loads
    ((SocketClientMixin.Data <$> before) ++ SocketClientMixin.Data chunk :: after)
  = SocketClientMixin.Returned v.
Proof.
  intros Hall Hchunk Hun Hv. unfold SocketClientMixin.socket_receive.
  by apply receive_loop_first_parse.
Qed.

Lemma socket_receive_returns_first_parse_witness :
  SocketClientMixin.socket_receive loads_empty_object
    ((SocketClientMixin.Data <$> ["{"])
       ++ SocketClientMixin.Data "}"
          :: [SocketClientMixin.Data "{}"; SocketClientMixin.RecvRaises SocketClientMixin.OSError])
  = SocketClientMixin.Returned (VDict ∅).
Proof.
  apply (socket_receive_returns_first_parse loads_empty_object ["{"] "}"
           [SocketClientMixin.Data "{}"; SocketClientMixin.RecvRaises SocketClientMixin.OSError]
           (VDict ∅)).
  - repeat constructor; discriminate.
  - discriminate.
  - intros n Hn. simpl in Hn. assert (n = 1%nat) as -> by lia. reflexivity.
  - reflexivity.
Defined.

(** X23: when the peer closes before any text has parsed, socket_receive
    raises and never returns a value: ConnectionError if nothing at all was
    received, JSONDecodeError if something was (the last attempt parses the
    text that has just failed to parse). *)
Theorem socket_receive_peer_closes
    (loads : string → SocketClientMixin.loaded) (received : list string)
    (after : list SocketClientMixin.recv_event) :
  Forall (λ data, data ≠ EmptyString) received →
  (∀ n, (0 < n ≤ length received)%nat →
        loads (SocketClientMixin.joined_chunks (take n received)) = SocketClientMixin.NotJSON) →
  SocketClientMixin.socket_receive loads
    ((SocketClientMixin.Data <$> received) ++ SocketClientMixin.Data EmptyString :: after)
  = SocketClientMixin.Raised
      (match received with
       | [] => SocketClientMixin.ConnectionError SocketClientMixin.ClosedWithoutResponse
       | _ => SocketClientMixin.JSONDecodeError
       end).
Proof.
  intros Hall Hun. unfold SocketClientMixin.socket_receive.
  by rewrite receive_loop_closed.
Qed.

Lemma socket_receive_peer_closes_witness :
  SocketClientMixin.socket_receive loads_empty_object
    ((SocketClientMixin.Data <$> ["{"; "["])
       ++ SocketClientMixin.Data EmptyString :: [])
  = SocketClientMixin.Raised SocketClientMixin.JSONDecodeError.
Proof.
  apply (socket_receive_peer_closes loads_empty_object ["{"; "["] []).
  - repeat constructor; discriminate.
  - intros n Hn. simpl in Hn.
    assert (n = 1%nat ∨ n = 2%nat) as [-> | ->] by lia; reflexivity.
Defined.

(** X24: socket_execute closes what it opened.  When the connection is
    established, the socket is closed whenever the call finishes, whether
    it returns the response or raises while sending or receiving, and the
    outcome is that of sending and receiving; when the connection cannot be
    established, the call raises (ConnectionError for a refusal or a
    timeout, the socket's own exception otherwise), nothing is sent or
    received, and there is no socket to close. *)
Theorem socket_execute_closes_socket
    (loads : string → SocketClientMixin.loaded) (net : SocketClientMixin.network) :
  (SocketClientMixin.on_connect net = SocketClientMixin.Connects →
     ((SocketClientMixin.socket_execute loads net).1 ≠ SocketClientMixin.Blocked →
        (SocketClientMixin.socket_execute loads net).2 = true)
     ∧ (SocketClientMixin.socket_execute loads net).1
       = match SocketClientMixin.on_sendall net with
         | Some e => SocketClientMixin.Raised e
         | None => SocketClientMixin.socket_receive loads (SocketClientMixin.on_recv net)
         end)
  ∧ (SocketClientMixin.on_connect net ≠ SocketClientMixin.Connects →
     (SocketClientMixin.socket_execute loads net).2 = false
     ∧ (SocketClientMixin.socket_execute loads net).1
       = SocketClientMixin.Raised
           (match SocketClientMixin.on_connect net with
            | SocketClientMixin.RaisesConnectionRefusedError =>
                SocketClientMixin.ConnectionError SocketClientMixin.Refused
            | SocketClientMixin.RaisesTimeout =>
                SocketClientMixin.ConnectionError SocketClientMixin.TimedOut
            | SocketClientMixin.RaisesOSError => SocketClientMixin.OSError
            | _ => SocketClientMixin.OtherException
            end)).
Proof.
  unfold SocketClientMixin.socket_execute, SocketClientMixin.socket_connect.
  split.
  - intros ->. destruct (SocketClientMixin.on_sendall net) as [e|]; [done|].
    by destruct (SocketClientMixin.socket_receive loads (SocketClientMixin.on_recv net)).
  - intros Hne. by destruct (SocketClientMixin.on_connect net).
Qed.

(** X25: socket_health_check answers True exactly when the connection is
    established, and then closes the socket; a refusal, a timeout and any
    other OSError of the socket give False instead of an exception; only an
    exception that is not an OSError leaves it. *)
Theorem socket_health_check_reports_reachability (net : SocketClientMixin.network) :
  ((SocketClientMixin.socket_health_check net).1 = SocketClientMixin.Returned true
   ↔ SocketClientMixin.on_connect net = SocketClientMixin.Connects)
  ∧ ((SocketClientMixin.socket_health_check net).1 = SocketClientMixin.Returned true →
     (SocketClientMixin.socket_health_check net).2 = true)
  ∧ ((SocketClientMixin.socket_health_check net).1 = SocketClientMixin.Returned false
     ↔ SocketClientMixin.on_connect net = SocketClientMixin.RaisesConnectionRefusedError
       ∨ SocketClientMixin.on_connect net = SocketClientMixin.RaisesTimeout
       ∨ SocketClientMixin.on_connect net = SocketClientMixin.RaisesOSError)
  ∧ (∀ e, (SocketClientMixin.socket_health_check net).1 = SocketClientMixin.Raised e →
          SocketClientMixin.on_connect net = SocketClientMixin.RaisesOther
          ∧ e = SocketClientMixin.OtherException).
Proof.
  unfold SocketClientMixin.socket_health_check, SocketClientMixin.socket_connect.
  destruct (SocketClientMixin.on_connect net); simpl; repeat split;
    try done; try (intros; naive_solver).
Qed.

(* --------------------------------------------------------------------- *)
(* Persistent server client: what can stop the loop                      *)
(* --------------------------------------------------------------------- *)

Section LoopExits.

Import BaseServerClient.

Implicit Types (c : BaseServerClient.t) (msgs : list inbound).

(** A message that asks for a disconnect. *)
Let asks_disconnect (m : inbound) : Prop :=
  ∃ message, m = Decoded (VDict message)
             ∧ lookup_handler (dict_get message "type") = Some HandleDisconnect.

Lemma handle_message_unchanged c (m : inbound) :
  ¬ asks_disconnect m → (_handle_message c m).1 = c.
Proof.
  intros Hnot. destruct m as [|v]; [done|].
  destruct v as [| | | | |message|]; try done.
  unfold _handle_message.
  destruct (lookup_handler (dict_get message "type")) as [[| |]|] eqn:Hh; try done.
  - destruct (_handle_execute_command c message) as [[]|e]; try done.
    by destruct (exc_is_Exception e).
  - destruct (_handle_health_check c message) as [frame|e]; try done.
    by destruct (exc_is_Exception e).
  - destruct Hnot. by exists message.
Qed.

Lemma handle_all_unchanged msgs : ∀ c,
  Forall (λ m, ¬ asks_disconnect m) msgs → (handle_all c msgs).1 = c.
Proof.
  induction msgs as [|m msgs IH]; intros c Hall; [done|].
  apply Forall_cons in Hall as [Hm Hall]. simpl.
  pose proof (handle_message_unchanged c m Hm) as Hc.
  destruct (_handle_message c m) as [c' [u|e]]; simpl in *; subst; [by apply IH | done].
Qed.

Lemma run_loop_raises (script : list env_event) : ∀ c (e : py_exception) c',
  run_loop script c = RunRaises e c' → exc_is_Exception e = false.
Proof.
  assert (Hloop : ∀ c msgs (end_ : stream_end) c' e,
            message_loop c msgs end_ = (c', Raises e) → exc_is_Exception e = false).
  { intros c msgs end_ c' e. unfold message_loop.
    pose proof (handle_all_raises msgs e c) as Hall.
    destruct (handle_all c msgs) as [c1 [u|exn]]; simpl in *.
    - destruct end_ as [| | |exn]; try done.
      destruct (exc_is_Exception exn) eqn:Hexn; [done|]. by intros [= <- <-].
    - intros [= <- <-]. by apply Hall. }
  induction script as [|ev script IH]; intros c e c'.
  - simpl. destruct (negb (_running c)); [done|].
    by destruct (negb (is_connected c)).
  - simpl. destruct (_running c) eqn:Hrun; simpl; [|done].
    destruct (is_connected c) eqn:Hconn; simpl.
    + destruct ev as [o|msgs end_]; [done|].
      destruct (message_loop c msgs end_) as [c1 [u|exn]] eqn:Hm.
      * apply IH.
      * intros [= <- <-]. by apply (Hloop _ _ _ _ _ Hm).
    + destruct ev as [o|msgs end_]; [|done].
      destruct (connect true o c) as [c1 [[|]|exn]] eqn:Hconnect.
      * apply connect_success in Hconnect as (Hconn1 & Hn1 & Hrun1); [|done].
        rewrite <- run_loop_connected by congruence. apply IH.
      * destruct (_ >? _)%Z; [done | apply IH].
      * unfold connect in Hconnect. rewrite Hconn in Hconnect. simpl in Hconnect.
        destruct o as [| | |e0|h e0]; try done;
          destruct (exc_is_Exception e0) eqn:He0; try done;
          injection Hconnect as <- <-; by intros [= <- <-].
Qed.

End LoopExits.

(** X26: with the websockets package importable, no exception of the
    Exception hierarchy ever leaves run, whatever the network, the adapter
    and the handlers do: an exception that ends run is outside that
    hierarchy (a KeyboardInterrupt, a SystemExit or a cancellation, say). *)
Theorem run_raises_no_Exception
    (script : list BaseServerClient.env_event) (c c' : BaseServerClient.t)
    (e : py_exception) :
  BaseServerClient.run true script c = BaseServerClient.RunRaises e c' →
  exc_is_Exception e = false.
Proof. unfold BaseServerClient.run. simpl. apply run_loop_raises. Qed.

Lemma run_raises_no_Exception_witness :
  exc_is_Exception KeyboardInterrupt = false.
Proof.
  apply (run_raises_no_Exception
           [BaseServerClient.EvConnect (BaseServerClient.Registered 7%nat);
            BaseServerClient.EvSession
              [BaseServerClient.Decoded (VDict execute_command_frame)]
              BaseServerClient.Exhausted]
           (BaseServerClient.init default_config
              (Some (adapter_with "create_box" (raising true KeyboardInterrupt))))
           (BaseServerClient.set_reconnect_attempts 0
              (BaseServerClient.set_state BaseServerClient.CONNECTED
                 (BaseServerClient.set_ws (Some 7%nat)
                    (BaseServerClient.set_state BaseServerClient.CONNECTING
                       (BaseServerClient.set_running true
                          (BaseServerClient.init default_config
                             (Some (adapter_with "create_box"
                                      (raising true KeyboardInterrupt)))))))))
           KeyboardInterrupt).
  reflexivity.
Defined.

(** X27: only a disconnect request changes the client's own attributes
    during the message loop.  If none of the messages of an iteration is a
    disconnect request, then after handling them (all of them, or those up
    to an exception that leaves a handler) the configuration, the handle,
    the state, the counter and the loop flag are as they were before:
    malformed text, frames that are not objects, unknown types, health
    checks and commands, well typed or not, leave them alone.  What a
    handler does to the adapter object is not modelled, so nothing is said
    about it. *)
Theorem only_disconnect_changes_the_client
    (c : BaseServerClient.t) (msgs : list BaseServerClient.inbound) :
  Forall (λ m, ∀ message,
            m = BaseServerClient.Decoded (VDict message) →
            BaseServerClient.lookup_handler (dict_get message "type")
            ≠ Some BaseServerClient.HandleDisconnect) msgs →
  own_attributes (BaseServerClient.handle_all c msgs).1 = own_attributes c.
Proof.
  intros Hall. f_equal. apply handle_all_unchanged.
  eapply Forall_impl; [exact Hall|].
  intros m Hm (message & -> & Hh). by apply (Hm message).
Qed.

Lemma only_disconnect_changes_the_client_witness :
  own_attributes
    (BaseServerClient.handle_all
       (BaseServerClient.set_running true
          (BaseServerClient.set_state BaseServerClient.CONNECTED
             (BaseServerClient.set_ws (Some 7%nat)
                (BaseServerClient.init default_config
                   (Some (adapter_with "create_box" (raising true ValueError)))))))
       [BaseServerClient.Malformed;
        BaseServerClient.Decoded (VList []);
        BaseServerClient.Decoded (VDict (<["type" := VStr "health_check"]> ∅));
        BaseServerClient.Decoded (VDict execute_command_frame);
        BaseServerClient.Decoded
          (VDict (<["params" := VList []]> execute_command_frame));
        BaseServerClient.Decoded
          (VDict (<["command_type" := VList []]> execute_command_frame))]).1
  = (default_config, Some 7%nat, BaseServerClient.CONNECTED, 0%Z, true).
Proof.
  apply (only_disconnect_changes_the_client
           (BaseServerClient.set_running true
              (BaseServerClient.set_state BaseServerClient.CONNECTED
                 (BaseServerClient.set_ws (Some 7%nat)
                    (BaseServerClient.init default_config
                       (Some (adapter_with "create_box" (raising true ValueError)))))))
           [BaseServerClient.Malformed;
            BaseServerClient.Decoded (VList []);
            BaseServerClient.Decoded (VDict (<["type" := VStr "health_check"]> ∅));
            BaseServerClient.Decoded (VDict execute_command_frame);
            BaseServerClient.Decoded
              (VDict (<["params" := VList []]> execute_command_frame));
            BaseServerClient.Decoded
              (VDict (<["command_type" := VList []]> execute_command_frame))]).
  repeat constructor; intros message Hm; try discriminate Hm;
    injection Hm as <-; vm_compute; discriminate.
Defined.

(** X28: a stopped server executes nothing.  After server_stop (or before
    server_start), server_process_queue returns False and leaves the queue
    and both maps as they are, so a request that is queued while the
    execution thread only polls that way is never executed: its caller gets
    the timeout error and the operation stays on the queue. *)
Theorem stopped_server_executes_nothing
    (s : SocketServerMixin.t) (cmd : SocketServerMixin.command) (uuid4 : string)
    (exec : SocketServerMixin.executor) (max_ops : Z) :
  SocketServerMixin.server_process_queue exec max_ops (SocketServerMixin.server_stop s)
    = (SocketServerMixin.server_stop s, Returns false)
  ∧ ∃ s', SocketServerMixin._server_queue_and_wait (SocketServerMixin.server_stop s)
            (SocketServerMixin.Object cmd) uuid4
            (λ s1, (SocketServerMixin.server_process_queue exec max_ops s1).1)
          = (s', Returns (SocketServerMixin.error_response "Operation timed out"))
          ∧ SocketServerMixin._operation_queue s'
            = (SocketServerMixin._operation_queue s
                 ++ [SocketServerMixin.operation_of cmd uuid4])%list
          ∧ SocketServerMixin._result_map s' = SocketServerMixin._result_map s
          ∧ SocketServerMixin._server_running s' = false.
Proof.
  split; [reflexivity|].
  unfold SocketServerMixin._server_queue_and_wait.
  rewrite queue_and_wait_begin_object. simpl.
  unfold SocketServerMixin._server_queue_and_wait_end, SocketServerMixin.is_set.
  map_steps.
  eexists. split; [reflexivity|]. done.
Qed.
